(** * node-xmlrpc, lib/client.js: the XML-RPC client

    A shallow embedding of [Client], [methodCall], [getCookie] and
    [setCookie] of lib/client.js, and the properties of the request
    lifecycle that the specification states about them.

    Conventions of the embedding.
    - A JavaScript string is a Rocq [string], one character per UTF-16
      code unit; the model covers the strings whose code units are
      below 256.
    - A JavaScript object that the code mutates and shares (the options
      object, its [headers] object) lives in a store and is named by a
      location; the functions pass the store explicitly.
    - A function that may throw returns an [outcome].
    - The collaborators that are not part of lib/client.js (url.parse,
      the Serializer, the package version) are variables of the section
      that holds the code using them; what zlib.gzip hands to its
      callback is an argument of that callback. *)

From Stdlib Require Import ZArith String Ascii List Bool Lia.
From stdpp Require Import base option list gmap strings pretty.

Local Open Scope string_scope.
Local Open Scope Z_scope.

(** ** JavaScript values of the option fields *)

(** The values an option field is read as where the code relies on
    truthiness or on the conversion to a string ([port], [gzip],
    [cookies]). A number is an IEEE 754 double; the model holds the
    doubles whose value is an integer, and [JNum n] is the number that
    the integer literal [n] is read as: the double nearest to [n]. *)
Inductive jsval : Type :=
  | JUndefined
  | JNull
  | JBool (b : bool)
  | JNum (n : Z)
  | JStr (s : string).

Global Instance jsval_eq_dec : EqDecision jsval.
Proof. solve_decision. Defined.

(** ToBoolean *)
Definition truthy (v : jsval) : bool :=
  match v with
  | JUndefined | JNull => false
  | JBool b => b
  | JNum n => negb (n =? 0)
  | JStr s => negb (String.eqb s "")
  end.

(** *** Numbers *)

(** The double nearest to a positive integer [m], ties to the even
    significand: 53 bits are kept. A result of 2^1024 or more stands for
    Infinity. *)
Definition roundDoublePos (m : Z) : Z :=
  let shift := Z.log2 m - 52 in
  if shift <=? 0 then m
  else
    let q := Z.shiftr m shift in
    let r := Z.land m (Z.ones shift) in
    let half := Z.shiftl 1 (shift - 1) in
    let q := if (half <? r) || ((r =? half) && Z.odd q) then q + 1 else q in
    Z.shiftl q shift.

(** The value of an arithmetic operation whose exact result is the
    integer [n] *)
Definition roundDouble (n : Z) : Z :=
  match n with
  | Z0 => 0
  | Zpos _ => roundDoublePos n
  | Zneg _ => - roundDoublePos (- n)
  end.

Definition digitCount (x : Z) : Z := Z.of_nat (String.length (pretty x)).

(** Number::toString looks for the decimal numeral with the fewest
    significant digits that still reads back as the double [x].
    [shortestAt x k] is the numeral of [k] significant digits that does,
    if there is one: the one nearest to [x], the even one of two equally
    near. *)
Definition shortestAt (x : Z) (k : Z) : option Z :=
  let p := 10 ^ Z.max 0 (digitCount x - k) in
  let lo := x / p * p in
  let hi := lo + p in
  match roundDouble lo =? x, roundDouble hi =? x with
  | true, true =>
      Some (if x - lo <? hi - x then lo
            else if hi - x <? x - lo then hi
            else if Z.even (x / p) then lo else hi)
  | true, false => Some lo
  | false, true => Some hi
  | false, false => None
  end.

Fixpoint shortest (x : Z) (k : Z) (fuel : nat) : Z :=
  match fuel with
  | O => x
  | S fuel =>
      match shortestAt x k with
      | Some v => v
      | None => shortest x (k + 1) fuel
      end
  end.

Fixpoint stripZeros (v : Z) (fuel : nat) : Z :=
  match fuel with
  | O => v
  | S fuel => if v mod 10 =? 0 then stripZeros (v / 10) fuel else v
  end.

(** Number::toString of a positive integer double: the digits in full up
    to 21 of them, in exponent form beyond. Seventeen significant digits
    tell any two doubles apart. *)
Definition numberToStringPos (x : Z) : string :=
  if 2 ^ 1024 <=? x then "Infinity"
  else
    let v := shortest x 1 17 in
    let n := digitCount v in
    if n <=? 21 then pretty v
    else
      let s := pretty (stripZeros v (Z.to_nat n)) in
      match s with
      | String c EmptyString => s
      | String c rest => String c ("." +:+ rest)
      | EmptyString => s
      end +:+ "e+" +:+ pretty (n - 1).

(** Number::toString of [JNum n] *)
Definition numberToString (n : Z) : string :=
  match roundDouble n with
  | Z0 => "0"
  | Zpos _ as x => numberToStringPos x
  | Zneg _ as x => "-" +:+ numberToStringPos (- x)
  end.

(** ToString, as [+] applies it to a value next to a string *)
Definition toString (v : jsval) : string :=
  match v with
  | JUndefined => "undefined"
  | JNull => "null"
  | JBool true => "true"
  | JBool false => "false"
  | JNum n => numberToString n
  | JStr s => s
  end.

(** A field that holds a string, or nothing ([undefined] or [null]). *)
Definition truthyStr (s : option string) : bool :=
  match s with
  | Some s => negb (String.eqb s "")
  | None => false
  end.

(** [a || b] on string fields *)
Definition orStr (a : option string) (b : string) : string :=
  match a with
  | Some s => if String.eqb s "" then b else s
  | None => b
  end.

(** [s.charAt(0)]: the first character, or the empty string *)
Definition charAt0 (s : string) : string :=
  match s with
  | EmptyString => ""
  | String c _ => String c ""
  end.

(** ** Buffers: UTF-8 and base64 *)

Definition Buffer := list Z.

(** The UTF-8 bytes of one code unit below 256 *)
Definition utf8Char (c : ascii) : list Z :=
  let n := Z.of_N (N_of_ascii c) in
  if n <? 128 then [n]
  else [Z.lor 192 (Z.shiftr n 6); Z.lor 128 (Z.land n 63)].

(** [new Buffer(s)]: the UTF-8 encoding of [s] *)
Fixpoint utf8ToBytes (s : string) : Buffer :=
  match s with
  | EmptyString => []
  | String c rest => (utf8Char c ++ utf8ToBytes rest)%list
  end.

Definition base64Alphabet : string :=
  "ABCDEFGHIJKLMNOPQRSTUVWXYZabcdefghijklmnopqrstuvwxyz0123456789+/".

Definition base64Digit (n : Z) : string :=
  match String.get (Z.to_nat n) base64Alphabet with
  | Some c => String c ""
  | None => ""
  end.

(** [buf.toString('base64')] *)
Fixpoint base64 (bs : Buffer) : string :=
  match bs with
  | [] => ""
  | [a] =>
      base64Digit (Z.shiftr a 2) +:+
      base64Digit (Z.shiftl (Z.land a 3) 4) +:+ "=="
  | [a; b] =>
      base64Digit (Z.shiftr a 2) +:+
      base64Digit (Z.lor (Z.shiftl (Z.land a 3) 4) (Z.shiftr b 4)) +:+
      base64Digit (Z.shiftl (Z.land b 15) 2) +:+ "="
  | a :: b :: c :: rest =>
      base64Digit (Z.shiftr a 2) +:+
      base64Digit (Z.lor (Z.shiftl (Z.land a 3) 4) (Z.shiftr b 4)) +:+
      base64Digit (Z.lor (Z.shiftl (Z.land b 15) 2) (Z.shiftr c 6)) +:+
      base64Digit (Z.land c 63) +:+ base64 rest
  end.

(** ASCII lower case, for the names of encodings *)
Definition lowerChar (c : ascii) : ascii :=
  let n := N_of_ascii c in
  if ((65 <=? n) && (n <=? 90))%N then ascii_of_N (n + 32) else c.

Fixpoint toLowerCase (s : string) : string :=
  match s with
  | EmptyString => ""
  | String c rest => String (lowerChar c) (toLowerCase rest)
  end.

(** The character of [s] at [i] is the padding character of base64 *)
Definition isPadding (s : string) (i : nat) : bool :=
  match String.get i s with
  | Some c => (N_of_ascii c =? 61)%N
  | None => false
  end.

(** The bytes that the base64 digits of [s] stand for: up to two padding
    characters off the end, then three bytes for four digits *)
Definition base64ByteLength (s : string) : nat :=
  let bytes := String.length s in
  let bytes := if isPadding s (bytes - 1) then (bytes - 1)%nat else bytes in
  let bytes :=
    if (1 <? bytes)%nat && isPadding s (bytes - 1)
    then (bytes - 1)%nat else bytes in
  (bytes * 3 / 4)%nat.

(** [Buffer.byteLength(s, encoding)] of Node: the number of bytes [s]
    takes when it is written in [encoding]. The name of the encoding is
    read without regard to case, and a name Node does not know counts as
    UTF-8. *)
Definition byteLength (s : string) (encoding : string) : nat :=
  let enc := toLowerCase encoding in
  if (String.eqb enc "ascii" || String.eqb enc "latin1" || String.eqb enc "binary")%bool
  then String.length s
  else if (String.eqb enc "ucs2" || String.eqb enc "ucs-2" ||
           String.eqb enc "utf16le" || String.eqb enc "utf-16le")%bool
  then (String.length s * 2)%nat
  else if String.eqb enc "hex" then (String.length s / 2)%nat
  else if String.eqb enc "base64" then base64ByteLength s
  else length (utf8ToBytes s).

(** ** Outcomes of a call: a value, a thrown exception, or a broken store *)

(** [new Error(message)] *)
Inductive jsError : Type := JsError (message : string).

Global Instance jsError_eq_dec : EqDecision jsError.
Proof. solve_decision. Defined.

(** What a [throw] carries: lib/client.js throws a string, the
    collaborators throw Error objects, and reading a property of
    [undefined] throws a TypeError (its message is the engine's). *)
Inductive thrown : Type :=
  | ThrownString (s : string)
  | ThrownError (e : jsError)
  | ThrownTypeError.

(** [Stuck] marks a location that the store does not hold; no store that
    JavaScript builds has one. *)
Inductive outcome (A : Type) : Type :=
  | Return (a : A)
  | Throw (t : thrown)
  | Stuck.
Arguments Return {A} a.
Arguments Throw {A} t.
Arguments Stuck {A}.

Global Instance outcome_ret : MRet outcome := fun A a => Return a.
Global Instance outcome_bind : MBind outcome := fun A B f m =>
  match m with
  | Return a => f a
  | Throw t => Throw t
  | Stuck => Stuck
  end.

Definition ofOption {A} (x : option A) : outcome A :=
  match x with
  | Some a => Return a
  | None => Stuck
  end.

(** ** The options object and the store *)

Abbreviation loc := nat (only parsing).

Record BasicAuth : Type := { user : option string; pass : option string }.

(** The options object, with the fields lib/client.js reads or writes. A
    string field is [None] when it is [undefined] or [null]; [headers]
    holds the location of the headers object. *)
Record Options : Type := {
  host : option string;
  port : jsval;
  url : option string;
  path : option string;
  cookies : jsval;
  keepAlive : option Z;
  gzip : jsval;
  userAgent : option string;
  headers : option loc;
  basic_auth : option BasicAuth;
  encoding : option string;
  responseEncoding : option string;
  method : option string
}.

Definition set_host (v : option string) (o : Options) : Options :=
  {| host := v; port := port o; url := url o; path := path o;
     cookies := cookies o; keepAlive := keepAlive o; gzip := gzip o;
     userAgent := userAgent o; headers := headers o;
     basic_auth := basic_auth o; encoding := encoding o;
     responseEncoding := responseEncoding o; method := method o |}.

Definition set_port (v : jsval) (o : Options) : Options :=
  {| host := host o; port := v; url := url o; path := path o;
     cookies := cookies o; keepAlive := keepAlive o; gzip := gzip o;
     userAgent := userAgent o; headers := headers o;
     basic_auth := basic_auth o; encoding := encoding o;
     responseEncoding := responseEncoding o; method := method o |}.

Definition set_url (v : option string) (o : Options) : Options :=
  {| host := host o; port := port o; url := v; path := path o;
     cookies := cookies o; keepAlive := keepAlive o; gzip := gzip o;
     userAgent := userAgent o; headers := headers o;
     basic_auth := basic_auth o; encoding := encoding o;
     responseEncoding := responseEncoding o; method := method o |}.

Definition set_path (v : option string) (o : Options) : Options :=
  {| host := host o; port := port o; url := url o; path := v;
     cookies := cookies o; keepAlive := keepAlive o; gzip := gzip o;
     userAgent := userAgent o; headers := headers o;
     basic_auth := basic_auth o; encoding := encoding o;
     responseEncoding := responseEncoding o; method := method o |}.

Definition set_keepAlive (v : option Z) (o : Options) : Options :=
  {| host := host o; port := port o; url := url o; path := path o;
     cookies := cookies o; keepAlive := v; gzip := gzip o;
     userAgent := userAgent o; headers := headers o;
     basic_auth := basic_auth o; encoding := encoding o;
     responseEncoding := responseEncoding o; method := method o |}.

Definition set_gzip (v : jsval) (o : Options) : Options :=
  {| host := host o; port := port o; url := url o; path := path o;
     cookies := cookies o; keepAlive := keepAlive o; gzip := v;
     userAgent := userAgent o; headers := headers o;
     basic_auth := basic_auth o; encoding := encoding o;
     responseEncoding := responseEncoding o; method := method o |}.

Definition set_headers (v : option loc) (o : Options) : Options :=
  {| host := host o; port := port o; url := url o; path := path o;
     cookies := cookies o; keepAlive := keepAlive o; gzip := gzip o;
     userAgent := userAgent o; headers := v;
     basic_auth := basic_auth o; encoding := encoding o;
     responseEncoding := responseEncoding o; method := method o |}.

Definition set_method (v : option string) (o : Options) : Options :=
  {| host := host o; port := port o; url := url o; path := path o;
     cookies := cookies o; keepAlive := keepAlive o; gzip := gzip o;
     userAgent := userAgent o; headers := headers o;
     basic_auth := basic_auth o; encoding := encoding o;
     responseEncoding := responseEncoding o; method := v |}.

(** An object literal with no field set *)
Definition emptyOptions : Options :=
  {| host := None; port := JUndefined; url := None; path := None;
     cookies := JUndefined; keepAlive := None; gzip := JUndefined;
     userAgent := None; headers := None; basic_auth := None;
     encoding := None; responseEncoding := None; method := None |}.

(** The store: the options objects and the headers objects, by location. *)
Record Store : Type := {
  optionsObjects : gmap loc Options;
  headersObjects : gmap loc (gmap string string)
}.

Definition emptyStore : Store :=
  {| optionsObjects := ∅; headersObjects := ∅ |}.

Definition loadOptions (l : loc) (σ : Store) : outcome Options :=
  ofOption (optionsObjects σ !! l).

Definition loadHeaders (l : loc) (σ : Store) : outcome (gmap string string) :=
  ofOption (headersObjects σ !! l).

Definition storeOptions (l : loc) (o : Options) (σ : Store) : Store :=
  {| optionsObjects := <[l := o]> (optionsObjects σ);
     headersObjects := headersObjects σ |}.

Definition storeHeaders (l : loc) (hs : gmap string string) (σ : Store) : Store :=
  {| optionsObjects := optionsObjects σ;
     headersObjects := <[l := hs]> (headersObjects σ) |}.

(** The headers object that the options object at [l] points to *)
Definition headersOf (l : loc) (σ : Store) : option (gmap string string) :=
  o ← optionsObjects σ !! l; lh ← headers o; headersObjects σ !! lh.

(** The header [k] of the configuration at [l], as the store has it *)
Definition storedHeader (l : loc) (k : string) (σ : Store) : option string :=
  hs ← headersOf l σ; hs !! k.

(** ** The cookie jar *)

(** The headers of a response, as [parseResponse] reads them: the
    [Set-Cookie] entries as name and value, in the order received, and the
    other fields. *)
Record IncomingHeaders : Type := {
  setCookieEntries : list (string * string);
  otherFields : gmap string string
}.

(** Modelled from the spec: the cookie jar of lib/cookies.js, which is not
    among the sources. A mapping from cookie name to its current value;
    [composeRequest] writes the whole jar into the [Cookie] header as
    semicolon-joined name=value pairs, [parseResponse] overwrites the names
    that the [Set-Cookie] entries carry, the last value received winning. *)
Module Cookies.

Definition pair_toString (c : string * string) : string :=
  c.1 +:+ "=" +:+ c.2.

Fixpoint join (sep : string) (l : list string) : string :=
  match l with
  | [] => ""
  | [s] => s
  | s :: rest => s +:+ sep +:+ join sep rest
  end.

(** Modelled from the spec: the jar as semicolon-joined name=value pairs *)
Definition toString (jar : gmap string string) : string :=
  join ";" (pair_toString <$> map_to_list jar).

(** Modelled from the spec: [get(name)], the current value or absent *)
Definition get (jar : gmap string string) (name : string) : option string :=
  jar !! name.

(** Modelled from the spec: [set(name, value)] stores or overwrites *)
Definition set (jar : gmap string string) (name value : string)
  : gmap string string :=
  <[name := value]> jar.

(** Modelled from the spec: [composeRequest(headers)] serializes the full
    current map into the [Cookie] header of the outgoing headers *)
Definition composeRequest (jar : gmap string string)
    (hs : gmap string string) : gmap string string :=
  <["Cookie" := toString jar]> hs.

(** Modelled from the spec: [parseResponse(headers)] overwrites the names
    of the [Set-Cookie] entries and leaves the other names untouched *)
Definition parseResponse (jar : gmap string string)
    (incoming : IncomingHeaders) : gmap string string :=
  fold_left (fun j c => <[c.1 := c.2]> j) (setCookieEntries incoming) jar.

End Cookies.

(** ** The client object *)

(** An entry of [headersProcessors.processors]. The only processor
    lib/client.js registers is the client's own cookie jar; the entry
    aliases [this.cookies]. *)
Inductive Processor : Type := CookiesProcessor.

Record AgentOptions : Type := {
  maxSockets : Z;
  maxFreeSockets : Z;
  timeout : Z;
  keepAliveTimeout : option Z
}.

Record ClientObj : Type := {
  this_options : loc;
  this_isSecure : bool;
  this_processors : list Processor;
  this_cookies : option (gmap string string);
  this_agent : AgentOptions
}.

(** The result of [url.parse] *)
Module Url.
Record t : Type := {
  hostname : option string;
  port : option string;
  pathname : option string
}.
End Url.

(** The argument of the constructor: a URI string or an options object *)
Inductive Input : Type :=
  | InString (uri : string)
  | InObject (l : loc).

(** ** The constructor, [Client(options, isSecure)] *)

Section Constructor.

(** [url.parse] of Node, and the [version] field of package.json *)
Variable url_parse : string -> Url.t.
Variable package_version : string.

Definition portOfUrl (parsed : Url.t) : jsval :=
  match Url.port parsed with
  | Some s => JStr s
  | None => JNull
  end.

(** A string field next to [+]: the field always holds a string there *)
Definition strOf (s : option string) : string :=
  match s with
  | Some s => s
  | None => "undefined"
  end.

(** lines 37-41: the options object a URI string is turned into *)
Definition optionsOfUri (uri : string) : Options :=
  let parsed := url_parse uri in
  set_path (Url.pathname parsed)
    (set_host (Url.hostname parsed)
       (set_port (portOfUrl parsed) emptyOptions)).

(** lines 43-48: a [url] field overrides host, path and port *)
Definition resolveUrl (options : Options) : Options :=
  match url options with
  | Some u =>
      let parsedUrl := url_parse u in
      set_port (portOfUrl parsedUrl)
        (set_path (Url.pathname parsedUrl)
           (set_host (Url.hostname parsedUrl) options))
  | None => options
  end.

(** lines 50-52 *)
Definition defaultHost (options : Options) : Options :=
  if negb (truthyStr (host options))
  then set_host (Some "localhost") options else options.

(** lines 53-55 *)
Definition defaultPort (isSecure : bool) (options : Options) : Options :=
  if negb (truthy (port options))
  then set_port (JNum (if isSecure then 443 else 80)) options
  else options.

(** lines 56-58 *)
Definition defaultPath (options : Options) : Options :=
  if negb (truthyStr (path options))
  then set_path (Some "/") options else options.

(** lines 59-61 *)
Definition slashPath (options : Options) : Options :=
  match path options with
  | Some p =>
      if negb (String.eqb p "") && negb (String.eqb (charAt0 p) "/")
      then set_path (Some ("/" +:+ p)) options else options
  | None => options
  end.

(** line 62 *)
Definition defaultKeepAlive (options : Options) : Options :=
  set_keepAlive
    (Some (match keepAlive options with
           | Some n => if n =? 0 then 0 else n
           | None => 0
           end)) options.

(** line 63 *)
Definition defaultGzip (options : Options) : Options :=
  set_gzip (if truthy (gzip options) then gzip options else JBool false)
    options.

(** lines 65-66 *)
Definition canonicalUrl (isSecure : bool) (options : Options) : Options :=
  let options :=
    set_url (Some ((if isSecure then "https://" else "http://") +:+
                   strOf (host options) +:+ ":")) options in
  set_url (Some (strOf (url options) +:+
                 (toString (port options) +:+ strOf (path options))))
    options.

(** lines 43-66: the fields of the options object after the defaults, one
    statement after the other *)
Definition normalizeOptions (isSecure : bool) (options : Options) : Options :=
  canonicalUrl isSecure
    (defaultGzip
       (defaultKeepAlive
          (slashPath
             (defaultPath
                (defaultPort isSecure
                   (defaultHost (resolveUrl options))))))).

(** lines 69-84: the default headers, in the order the object literal
    and the two assignments add them *)
Definition defaultHeaders (options : Options) : list (string * string) :=
  ([ ("User-Agent",
      orStr (userAgent options) ("NodeJS XML-RPC Client/" +:+ package_version));
     ("Content-Type", "text/xml");
     ("Accept", "text/xml");
     ("Accept-Charset", "UTF8");
     ("Connection", "Keep-Alive") ]
   ++ (if truthy (gzip options) then [("Accept-Encoding", "gzip")] else [])
   ++ (if decide (gzip options = JStr "both")
       then [("Content-Encoding", "gzip")] else []))%list.

(** lines 88-95 *)
Definition addAuthorization (options : Options) (hs : gmap string string)
  : gmap string string :=
  match hs !! "Authorization", basic_auth options with
  | None, Some ba =>
      match user ba, pass ba with
      | Some u, Some p =>
          let auth := u +:+ ":" +:+ p in
          <["Authorization" := "Basic " +:+ base64 (utf8ToBytes auth)]> hs
      | _, _ => hs
      end
  | _, _ => hs
  end.

(** The [Authorization] header after lines 88-95 *)
Definition authorizationOf (o : Options) (hs : gmap string string)
  : option string :=
  match hs !! "Authorization" with
  | Some v => Some v
  | None =>
      match basic_auth o with
      | Some ba =>
          match user ba, pass ba with
          | Some u, Some p =>
              Some ("Basic " +:+ base64 (utf8ToBytes (u +:+ ":" +:+ p)))
          | _, _ => None
          end
      | None => None
      end
  end.

(** lines 97-101 *)
Definition addDefaults (defaults : list (string * string))
    (hs : gmap string string) : gmap string string :=
  fold_left
    (fun hs attribute =>
       match hs !! attribute.1 with
       | None => <[attribute.1 := attribute.2]> hs
       | Some _ => hs
       end)
    defaults hs.

(** lines 121-130. The sum of line 128 is a sum of doubles; the model
    holds the finite ones. *)
Definition agentOptions (options : Options) : AgentOptions :=
  match keepAlive options with
  | Some n =>
      if 0 <? n
      then {| maxSockets := 100; maxFreeSockets := 10;
              timeout := roundDouble (roundDouble n + 10000);
              keepAliveTimeout := Some n |}
      else {| maxSockets := 100; maxFreeSockets := 10;
              timeout := 3000; keepAliveTimeout := None |}
  | None => {| maxSockets := 100; maxFreeSockets := 10;
               timeout := 3000; keepAliveTimeout := None |}
  end.

(** The location of a new object *)
Definition newLoc {A} (m : gmap loc A) : loc := fresh (dom m).

(** [Client(options, isSecure)]: the client and the store it leaves.
    Every assignment to a field of [options] is an update of the object
    at its location, the caller's object when an object was passed. *)
Definition Client (options : Input) (isSecure : bool) (σ : Store)
  : outcome (ClientObj * Store) :=
  '(l, σ) ← match options with
            | InString uri =>
                let l := newLoc (optionsObjects σ) in
                Return (l, storeOptions l (optionsOfUri uri) σ)
            | InObject l => Return (l, σ)
            end;
  o ← loadOptions l σ;
  let o := normalizeOptions isSecure o in
  let defaults := defaultHeaders o in
  '(lh, σ) ← match headers o with
             | Some lh => Return (lh, σ)
             | None =>
                 let lh := newLoc (headersObjects σ) in
                 Return (lh, storeHeaders lh ∅ σ)
             end;
  hs ← loadHeaders lh σ;
  let hs := addDefaults defaults (addAuthorization o hs) in
  let o := set_method (Some "POST") (set_headers (Some lh) o) in
  let σ := storeHeaders lh hs (storeOptions l o σ) in
  Return
    ({| this_options := l;
        this_isSecure := isSecure;
        this_processors :=
          if truthy (cookies o) then [CookiesProcessor] else [];
        this_cookies := if truthy (cookies o) then Some ∅ else None;
        this_agent := agentOptions o |},
     σ).

(** The options object the constructor starts from, and the headers the
    caller supplied with it (none for a URI string) *)
Definition inputOptions (options : Input) (σ : Store) : Options :=
  match options with
  | InString uri => optionsOfUri uri
  | InObject l => default emptyOptions (optionsObjects σ !! l)
  end.

Definition inputHeaders (options : Input) (σ : Store) : gmap string string :=
  match headers (inputOptions options σ) with
  | Some lh => default ∅ (headersObjects σ !! lh)
  | None => ∅
  end.

End Constructor.

(** The store holds the object that the argument names, and the headers
    object of that object. *)
Definition wellFormed (options : Input) (σ : Store) : bool :=
  match options with
  | InString _ => true
  | InObject l =>
      match optionsObjects σ !! l with
      | Some o =>
          match headers o with
          | Some lh => bool_decide (is_Some (headersObjects σ !! lh))
          | None => true
          end
      | None => false
      end
  end.

(** ** The header processors *)

(** [headersProcessors.composeRequest(headers)]: every processor, in the
    order of registration, over the one headers object *)
Definition composeRequest (this : ClientObj) (hs : gmap string string)
  : gmap string string :=
  fold_left
    (fun hs p =>
       match p, this_cookies this with
       | CookiesProcessor, Some jar => Cookies.composeRequest jar hs
       | CookiesProcessor, None => hs
       end)
    (this_processors this) hs.

Definition set_cookies (jar : option (gmap string string)) (this : ClientObj)
  : ClientObj :=
  {| this_options := this_options this;
     this_isSecure := this_isSecure this;
     this_processors := this_processors this;
     this_cookies := jar;
     this_agent := this_agent this |}.

(** [headersProcessors.parseResponse(headers)]: every processor, in the
    order of registration; the cookie jar is the state it changes *)
Definition parseResponse (this : ClientObj) (incoming : IncomingHeaders)
  : ClientObj :=
  fold_left
    (fun this p =>
       match p, this_cookies this with
       | CookiesProcessor, Some jar =>
           set_cookies (Some (Cookies.parseResponse jar incoming)) this
       | CookiesProcessor, None => this
       end)
    (this_processors this) this.

(** [c'] is the client [c] at a later time: only the contents of the
    cookie jar may differ. *)
Definition laterClient (c c' : ClientObj) : Prop :=
  this_options c' = this_options c /\
  this_isSecure c' = this_isSecure c /\
  this_processors c' = this_processors c /\
  this_agent c' = this_agent c /\
  (this_cookies c = None -> this_cookies c' = None) /\
  (is_Some (this_cookies c) -> is_Some (this_cookies c')).

(** ** The cookie accessors *)

Definition cookiesOff : thrown :=
  ThrownString "Cookies support is not turned on for this client instance".

(** [getCookie(name)]: [None] is the [undefined] of an absent cookie *)
Definition getCookie (this : ClientObj) (name : string)
  : outcome (option string) :=
  match this_cookies this with
  | None => Throw cookiesOff
  | Some jar => Return (Cookies.get jar name)
  end.

(** [setCookie(name, value)]: returns the client itself *)
Definition setCookie (this : ClientObj) (name value : string)
  : outcome ClientObj :=
  match this_cookies this with
  | None => Throw cookiesOff
  | Some jar => Return (set_cookies (Some (Cookies.set jar name value)) this)
  end.

(** ** The request that [methodCall] builds *)

(** A header of the request holds a string, or the number that
    [Content-Length] is set to. *)
Inductive HeaderValue : Type :=
  | HStr (s : string)
  | HNum (n : nat).

Inductive Body : Type :=
  | BodyString (s : string)
  | BodyBuffer (b : Buffer).

Record Request : Type := {
  req_url : option string;
  req_header : gmap string HeaderValue;
  req_agent : option AgentOptions;
  req_data : option Body
}.

(** [superagent.post(url)] *)
Definition superagent_post (u : option string) : Request :=
  {| req_url := u; req_header := ∅; req_agent := None; req_data := None |}.

(** [request.set(field, value)] *)
Definition request_set (field : string) (v : HeaderValue) (r : Request)
  : Request :=
  {| req_url := req_url r; req_header := <[field := v]> (req_header r);
     req_agent := req_agent r; req_data := req_data r |}.

(** [request.set(object)]: every field of the object *)
Definition request_setAll (hs : gmap string string) (r : Request) : Request :=
  {| req_url := req_url r; req_header := (HStr <$> hs) ∪ req_header r;
     req_agent := req_agent r; req_data := req_data r |}.

(** [request.agent(agent)] *)
Definition request_agent (a : AgentOptions) (r : Request) : Request :=
  {| req_url := req_url r; req_header := req_header r;
     req_agent := Some a; req_data := req_data r |}.

(** [request.send(data)] *)
Definition request_send (d : Body) (r : Request) : Request :=
  {| req_url := req_url r; req_header := req_header r;
     req_agent := req_agent r; req_data := Some d |}.

(** The request of lines 150-152, for the options [o] and the stored
    headers [hs] *)
Definition composedRequest (this : ClientObj) (o : Options)
    (hs : gmap string string) : Request :=
  request_agent (this_agent this)
    (request_setAll (composeRequest this hs) (superagent_post (url o))).

(** ** [methodCall(method, params, callback)] *)

(** The test of line 154 *)
Definition gzipBoth (options : Options) : bool :=
  truthy (gzip options) && bool_decide (gzip options = JStr "both").

(** lines 155-158: the callback that zlib.gzip calls once [methodCall]
    has returned, with the [err] or the [buffer] of the compression, on
    the request as it is by then. With an [err] the buffer is [undefined]
    and reading its length throws. *)
Definition gzipCallback (result : jsError + Buffer) (request : Request)
  : outcome Request :=
  match result with
  | inr buffer =>
      Return (request_send (BodyBuffer buffer)
                (request_set "Content-Length" (HNum (length buffer)) request))
  | inl err => Throw ThrownTypeError
  end.

Section MethodCall.

(** The parameters of a call and the values of a response *)
Context {Param Value : Type}.

(** [Serializer.serializeMethodCall(method, params, encoding)]: the XML
    of the call, or the exception it throws *)
Variable serializeMethodCall :
  string -> list Param -> option string -> thrown + string.

(** lines 144-162: what [methodCall] does before it returns: the request
    as it is when the deserializer receives it, and the store. In gzip
    mode 'both' line 155 hands the XML to zlib.gzip and goes on, so the
    request then has neither the Content-Length of the body nor a body;
    [gzipCallback] runs later. *)
Definition methodCall (this : ClientObj) (method : string)
    (params : list Param) (σ : Store) : outcome (Request * Store) :=
  options ← loadOptions (this_options this) σ;
  xml ← match serializeMethodCall method params (encoding options) with
        | inl t => Throw t
        | inr xml => Return xml
        end;
  lh ← ofOption (headers options);
  hs ← loadHeaders lh σ;
  (* composeRequest works on the stored headers object itself *)
  let hs := composeRequest this hs in
  let σ := storeHeaders lh hs σ in
  let request := superagent_post (url options) in
  let request := request_setAll hs request in
  let request := request_agent (this_agent this) request in
  let request :=
    if gzipBoth options
    then request
    else
      request_send (BodyString xml)
        (request_set "Content-Length" (HNum (byteLength xml "utf8")) request)
  in
  Return (request, σ).

(** *** The signals of a pending call (lines 164-188) *)

(** What arrives for a call after [methodCall] has returned: the request
    emits 'error', the request emits 'end' (with [this.err], the status
    code and the headers of [this.res]), or the deserializer calls back
    with [(err, result)]. *)
Inductive Signal : Type :=
  | RequestError (err : jsError)
  | RequestEnd (err : option jsError) (statusCode : Z)
      (incoming : IncomingHeaders)
  | Deserialized (err : option jsError) (result : option Value).

(** What a signal makes the code do that is visible outside: a call of
    the user callback with [(error, value)], a run of [parseResponse]. *)
Inductive Event : Type :=
  | Callback (err : option jsError) (result : option Value)
  | ParseResponse (incoming : IncomingHeaders).

(** The state of a call: the flag [ended], and the listeners that the
    deserializer callback added to 'end' (line 185), each holding its
    [(err, result)], in the order added. *)
Record PendingCall : Type := {
  ended : bool;
  endListeners : list (option jsError * option Value)
}.

Definition newCall : PendingCall :=
  {| ended := false; endListeners := [] |}.

(** [new Error('Not Found')] *)
Definition notFound : jsError := JsError "Not Found".

(** lines 171-180: the first listener of 'end' *)
Definition onEnd (this : ClientObj) (err : option jsError) (statusCode : Z)
    (incoming : IncomingHeaders) : ClientObj * list Event :=
  match err with
  | Some e => (this, [Callback (Some e) None])
  | None =>
      if statusCode =? 404
      then (this, [Callback (Some notFound) None])
      else (parseResponse this incoming, [ParseResponse incoming])
  end.

(** One signal: the listeners run in the order they were added. *)
Definition signal (this : ClientObj) (call : PendingCall) (s : Signal)
  : ClientObj * PendingCall * list Event :=
  match s with
  | RequestError err =>
      if ended call then (this, call, [])
      else (this,
            {| ended := true; endListeners := endListeners call |},
            [Callback (Some err) None])
  | RequestEnd err statusCode incoming =>
      let '(this', evs) := onEnd this err statusCode incoming in
      (this',
       {| ended := true; endListeners := endListeners call |},
       evs ++ map (fun l => Callback l.1 l.2) (endListeners call))%list
  | Deserialized err result =>
      if ended call then (this, call, [Callback err result])
      else (this,
            {| ended := ended call;
               endListeners := (endListeners call ++ [(err, result)])%list |},
            [])
  end.

(** The signals of a call, in the order of arrival *)
Fixpoint run (this : ClientObj) (call : PendingCall) (sigs : list Signal)
  : ClientObj * PendingCall * list Event :=
  match sigs with
  | [] => (this, call, [])
  | s :: rest =>
      let '(this1, call1, evs1) := signal this call s in
      let '(this2, call2, evs2) := run this1 call1 rest in
      (this2, call2, (evs1 ++ evs2)%list)
  end.

Definition events (this : ClientObj) (sigs : list Signal) : list Event :=
  (run this newCall sigs).2.

(** The calls of the user callback among the events *)
Fixpoint callbacks (evs : list Event)
  : list (option jsError * option Value) :=
  match evs with
  | [] => []
  | Callback err result :: rest => (err, result) :: callbacks rest
  | ParseResponse _ :: rest => callbacks rest
  end.

(** A signal of a transport that neither fails nor answers 404: an 'end'
    with no [err] and another status, or a result of the deserializer. *)
Definition cleanSignal (s : Signal) : bool :=
  match s with
  | RequestError _ => false
  | RequestEnd (Some _) _ _ => false
  | RequestEnd None statusCode _ => negb (statusCode =? 404)
  | Deserialized _ _ => true
  end.

Definition isEnd (s : Signal) : bool :=
  match s with RequestEnd _ _ _ => true | _ => false end.

Definition isDeserialized (s : Signal) : bool :=
  match s with Deserialized _ _ => true | _ => false end.

End MethodCall.

(** ** Notions for the further properties *)

Definition isRequestError {Value} (s : Signal (Value := Value)) : bool :=
  match s with RequestError _ => true | _ => false end.

(** The signal that delivers the result [d] of the deserializer *)
Definition deserialized {Value} (d : option jsError * option Value)
  : Signal (Value := Value) :=
  Deserialized d.1 d.2.

(** The processor list holds the cookie jar exactly when the client has
    one: [this.cookies] and [headersProcessors.processors] go together
    (lines 116-119). *)
Definition jarRegistered (c : ClientObj) : Prop :=
  (this_cookies c = None /\ this_processors c = []) \/
  (is_Some (this_cookies c) /\ this_processors c = [CookiesProcessor]).

(** ** Sample collaborators and inputs, for the examples below *)

(** A stand-in for [url.parse] that reads every string as
    http://localhost:9090/RPC2 is read. *)
Definition sampleUrlParse (s : string) : Url.t :=
  {| Url.hostname := Some "localhost"; Url.port := Some "9090";
     Url.pathname := Some "/RPC2" |}.

Definition sampleVersion : string := "1.3.1".

(** Parameters of a call: an integer or a string. *)
Inductive SampleParam : Type :=
  | PInt (n : Z)
  | PString (s : string).

Definition sampleValue (p : SampleParam) : string :=
  match p with
  | PInt n => "<param><value><int>" +:+ pretty n +:+ "</int></value></param>"
  | PString s => "<param><value><string>" +:+ s +:+ "</string></value></param>"
  end.

Fixpoint sampleParams (params : list SampleParam) : string :=
  match params with
  | [] => ""
  | p :: rest => sampleValue p +:+ sampleParams rest
  end.

(** A stand-in for the Serializer on these parameters; it does not
    throw. *)
Definition sampleSerializer (method : string) (params : list SampleParam)
    (encoding : option string) : thrown + string :=
  inr ("<methodCall><methodName>" +:+ method +:+ "</methodName><params>"
       +:+ sampleParams params +:+ "</params></methodCall>").

(** A store with one options object, at location 0 *)
Definition storeOf (o : Options) : Store := storeOptions 0%nat o emptyStore.

Definition set_cookiesOption (v : jsval) (o : Options) : Options :=
  {| host := host o; port := port o; url := url o; path := path o;
     cookies := v; keepAlive := keepAlive o; gzip := gzip o;
     userAgent := userAgent o; headers := headers o;
     basic_auth := basic_auth o; encoding := encoding o;
     responseEncoding := responseEncoding o; method := method o |}.

Definition set_encoding (v : option string) (o : Options) : Options :=
  {| host := host o; port := port o; url := url o; path := path o;
     cookies := cookies o; keepAlive := keepAlive o; gzip := gzip o;
     userAgent := userAgent o; headers := headers o;
     basic_auth := basic_auth o; encoding := v;
     responseEncoding := responseEncoding o; method := method o |}.

Definition set_basic_auth (v : option BasicAuth) (o : Options) : Options :=
  {| host := host o; port := port o; url := url o; path := path o;
     cookies := cookies o; keepAlive := keepAlive o; gzip := gzip o;
     userAgent := userAgent o; headers := headers o;
     basic_auth := v; encoding := encoding o;
     responseEncoding := responseEncoding o; method := method o |}.

(** [{ host: 'example.org', port: 8080, path: 'RPC2' }] *)
Definition sampleOptions : Options :=
  set_path (Some "RPC2")
    (set_port (JNum 8080) (set_host (Some "example.org") emptyOptions)).

(** The same with [cookies: true], the configuration and the headers the
    constructor makes of it, and the client and the store it returns *)
Definition sampleOptionsWithCookies : Options :=
  set_cookiesOption (JBool true) sampleOptions.

Definition sampleConfig : Options :=
  set_method (Some "POST")
    (set_headers (Some 0%nat)
       (normalizeOptions sampleUrlParse false sampleOptionsWithCookies)).

Definition sampleHeaders : gmap string string :=
  addDefaults (defaultHeaders sampleVersion sampleConfig) ∅.

Definition sampleStore : Store :=
  {| optionsObjects := {[ 0%nat := sampleConfig ]};
     headersObjects := {[ 0%nat := sampleHeaders ]} |}.

Definition sampleClient : ClientObj :=
  {| this_options := 0%nat;
     this_isSecure := false;
     this_processors := [CookiesProcessor];
     this_cookies := Some ∅;
     this_agent := agentOptions sampleConfig |}.

(** The client after [setCookie('a', '1')] *)
Definition sampleClientA1 : ClientObj :=
  set_cookies (Some {[ "a" := "1" ]}) sampleClient.

Definition sampleIncoming : IncomingHeaders :=
  {| setCookieEntries := [("a", "2")]; otherFields := ∅ |}.

(** * Properties *)

(** ** Buffers *)

Example base64_user_pass :
  base64 (utf8ToBytes "user:pass") = "dXNlcjpwYXNz".
Proof. reflexivity. Qed.

Example base64_padding :
  base64 (utf8ToBytes "a:b1") = "YTpiMQ==" /\ base64 (utf8ToBytes "ab:cd") = "YWI6Y2Q=".
Proof. split; reflexivity. Qed.

Example byteLength_utf8_ascii : byteLength "<a/>" "utf8" = 4%nat.
Proof. reflexivity. Qed.

(** ** Numbers *)

(** An integer up to 2^53 is a double: rounding leaves it as it is. *)
Lemma roundDouble_exact m :
  0 <= m <= 9007199254740992 -> roundDouble m = m.
Proof.
  intros [H0 H53].
  destruct (Z.eq_dec m 9007199254740992) as [->|Hne];
    [vm_compute; reflexivity|].
  destruct m as [|p|p]; [done| |lia].
  unfold roundDouble, roundDoublePos.
  assert (Z.log2 (Z.pos p) < 53) as Hlog
    by (apply Z.log2_lt_pow2; [lia|]; change (2 ^ 53) with 9007199254740992;
        lia).
  replace (Z.log2 (Z.pos p) - 52 <=? 0) with true; [done|].
  symmetry. apply Z.leb_le. lia.
Qed.

(** Beyond 2^53 a sum is rounded to the nearest double. *)
Example roundDouble_sum :
  roundDouble (9007199254740991 + 10000) = 9007199254750992.
Proof. vm_compute. reflexivity. Qed.

Example toString_port : toString (JNum 8080) = "8080".
Proof. vm_compute. reflexivity. Qed.

(** 2^53 + 1 is read as 2^53; 2^64 has 17 significant digits. *)
Example toString_nearest_double :
  toString (JNum 9007199254740993) = "9007199254740992" /\
  toString (JNum 18446744073709551616) = "18446744073709552000".
Proof. split; vm_compute; reflexivity. Qed.

(** The exponent form starts at 10^21. *)
Example toString_exponent :
  toString (JNum 999999999999999868928) = "999999999999999900000" /\
  toString (JNum 1000000000000000000000) = "1e+21" /\
  toString (JNum 1180591620717411303424) = "1.1805916207174113e+21" /\
  toString (JNum (-1000000000000000000000)) = "-1e+21".
Proof. repeat split; vm_compute; reflexivity. Qed.

(** ** The signals of a call *)

Section Signals.

Context {Value : Type}.
Implicit Types (this : ClientObj) (call : PendingCall (Value := Value)).
Implicit Types (sigs : list (Signal (Value := Value))).

Lemma laterClient_refl this : laterClient this this.
Proof. by repeat split. Qed.

Lemma laterClient_trans c1 c2 c3 :
  laterClient c1 c2 -> laterClient c2 c3 -> laterClient c1 c3.
Proof.
  intros (Ho & Hs & Hp & Ha & Hn & Hj) (Ho' & Hs' & Hp' & Ha' & Hn' & Hj').
  repeat split; try congruence; auto.
Qed.

(** [parseResponse] changes the contents of the jar and nothing else. *)
Lemma parseResponse_later this incoming :
  laterClient this (parseResponse this incoming).
Proof.
  unfold parseResponse. generalize (this_processors this) as ps.
  intros ps. revert this.
  induction ps as [|[] ps IH]; intros this; simpl.
  - apply laterClient_refl.
  - eapply laterClient_trans; [|apply IH].
    destruct (this_cookies this) as [jar|] eqn:Hjar.
    + unfold laterClient. simpl. rewrite Hjar. by repeat split.
    + apply laterClient_refl.
Qed.

Lemma signal_later this call (s : Signal (Value := Value)) :
  laterClient this (signal this call s).1.1.
Proof.
  destruct s as [err|[err|] statusCode incoming|err result]; simpl.
  - destruct (ended call); apply laterClient_refl.
  - apply laterClient_refl.
  - destruct (statusCode =? 404); simpl;
      [apply laterClient_refl|apply parseResponse_later].
  - destruct (ended call); apply laterClient_refl.
Qed.

Lemma callbacks_app (evs1 evs2 : list (Event (Value := Value))) :
  callbacks (evs1 ++ evs2) = (callbacks evs1 ++ callbacks evs2)%list.
Proof.
  induction evs1 as [|[err result|incoming] evs1 IH]; simpl; [done | |done].
  by rewrite IH.
Qed.

Lemma callbacks_listeners (ls : list (option jsError * option Value)) :
  callbacks (map (fun l => Callback l.1 l.2) ls) = ls.
Proof.
  induction ls as [|[err result] ls IH]; simpl; [done|]. by rewrite IH.
Qed.

Lemma run_cons this call s sigs :
  run this call (s :: sigs) =
    let st := signal this call s in
    let st' := run st.1.1 st.1.2 sigs in
    (st'.1.1, st'.1.2, (st.2 ++ st'.2)%list).
Proof.
  simpl. destruct (signal this call s) as [[this1 call1] evs1]. simpl.
  by destruct (run this1 call1 sigs) as [[this2 call2] evs2].
Qed.

(** The signals of a call change the contents of the jar and nothing else
    of the client. *)
Lemma run_later sigs : forall this call,
  laterClient this (run this call sigs).1.1.
Proof.
  induction sigs as [|s sigs IH]; intros this call.
  - apply laterClient_refl.
  - rewrite run_cons. simpl.
    eapply laterClient_trans; [apply signal_later|apply IH].
Qed.

(** While the transport has not ended, a run of clean signals that makes
    anything happen starts with [parseResponse]. *)
Lemma run_clean_parse_first sigs : forall this call,
  ended call = false ->
  forallb cleanSignal sigs = true ->
  (run this call sigs).2 = [] \/
  exists incoming rest, (run this call sigs).2 = ParseResponse incoming :: rest.
Proof.
  induction sigs as [|s sigs IH]; intros this call Hended Hclean.
  - by left.
  - rewrite run_cons. simpl in Hclean. apply andb_prop in Hclean as [Hs Hrest].
    destruct s as [err|[err|] statusCode incoming|err result]; try done.
    + right. simpl in *. destruct (statusCode =? 404); [done|]. simpl. eauto.
    + simpl. rewrite Hended. simpl. by apply IH.
Qed.

(** A callback in a run of clean signals needs the end of the transport
    and a result of the deserializer, each either already recorded in
    the state of the call or among the signals. *)
Lemma run_clean_callback_needs_both sigs : forall this call,
  forallb cleanSignal sigs = true ->
  callbacks (run this call sigs).2 <> [] ->
  (ended call = true \/ existsb isEnd sigs = true) /\
  (endListeners call <> [] \/ existsb isDeserialized sigs = true).
Proof.
  induction sigs as [|s sigs IH]; intros this call Hclean Hcb.
  - done.
  - rewrite run_cons in Hcb. simpl in Hclean.
    apply andb_prop in Hclean as [Hs Hrest].
    destruct s as [err|[err|] statusCode incoming|err result]; try done.
    + simpl in Hs, Hcb. destruct (statusCode =? 404); [done|]. simpl in Hcb.
      split; [by right|].
      rewrite callbacks_app, callbacks_listeners in Hcb.
      destruct (endListeners call) as [|l ls] eqn:Hls; [|by left].
      simpl in Hcb. apply IH in Hcb as [_ Hd]; [|done]. simpl in Hd.
      destruct Hd as [Hd|Hd]; [done|by right].
    + split; [|by right].
      simpl in Hcb. destruct (ended call) eqn:Hended; [by left|].
      simpl in Hcb. apply IH in Hcb as [He _]; [|done]. simpl in He.
      destruct He as [He|He]; [done|by right].
Qed.

(** X1. When the transport ends without error and with a status other
    than 404, and the deserializer delivers one result, the callback is
    called once, with that result, whichever comes first. *)
Theorem methodCall_clean_callback_once this statusCode incoming err
    (result : option Value) :
  statusCode <> 404 ->
  callbacks (events this [RequestEnd None statusCode incoming;
                          Deserialized err result]) = [(err, result)] /\
  callbacks (events this [Deserialized err result;
                          RequestEnd None statusCode incoming]) = [(err, result)].
Proof.
  intros Hsc%Z.eqb_neq. unfold events. simpl. by rewrite Hsc.
Qed.

(** C1, at the failing input. When the transport ends with status 404 and
    the deserializer delivers a result, the user callback is called twice,
    first with the Not Found error and then with the result of the
    deserializer, whichever of the two signals comes first; the same after
    a transport error, and after an 'end' that carries an error. The claim
    asks for exactly one call. *)
Theorem methodCall_404_callback_fires_twice this incoming e err
    (result : option Value) :
  callbacks (events this [RequestEnd None 404 incoming;
                          Deserialized err result])
    = [(Some notFound, None); (err, result)] /\
  callbacks (events this [Deserialized err result;
                          RequestEnd None 404 incoming])
    = [(Some notFound, None); (err, result)] /\
  callbacks (events this [RequestError e; Deserialized err result])
    = [(Some e, None); (err, result)] /\
  callbacks (events this [RequestEnd (Some e) 200 incoming;
                          Deserialized err result])
    = [(Some e, None); (err, result)].
Proof. by repeat split. Qed.

(** C2, at the failing input. When the transport ends with status 404 and
    the body parsed to [value], the callback gets the Not Found error and
    after it the parsed value: the result of the deserializer is delivered,
    not discarded, in both orders of arrival. *)
Theorem methodCall_404_delivers_deserializer_result this incoming
    (value : Value) :
  events this [RequestEnd None 404 incoming; Deserialized None (Some value)]
    = [Callback (Some notFound) None; Callback None (Some value)] /\
  events this [Deserialized None (Some value); RequestEnd None 404 incoming]
    = [Callback (Some notFound) None; Callback None (Some value)].
Proof. by split. Qed.

(** C5. When the transport ends without error and with a status other
    than 404, [parseResponse] runs over the headers of the response at
    once, whether or not the deserializer has delivered, and the cookie jar
    has its new values from then on; the callback is called after it, and
    only when both the end of the transport and the result of the
    deserializer have arrived. In any run of such signals the first thing
    that happens is a [parseResponse], and a callback occurs only if the
    signals hold an end of the transport and a result of the deserializer. *)
Theorem methodCall_parseResponse_before_callback this statusCode incoming
    err (result : option Value) :
  statusCode <> 404 ->
  events (Value := Value) this [RequestEnd None statusCode incoming]
    = [ParseResponse incoming] /\
  (run this newCall [RequestEnd (Value := Value) None statusCode incoming]).1.1
    = parseResponse this incoming /\
  events this [RequestEnd None statusCode incoming; Deserialized err result]
    = [ParseResponse incoming; Callback err result] /\
  events this [Deserialized err result] = [] /\
  events this [Deserialized err result; RequestEnd None statusCode incoming]
    = [ParseResponse incoming; Callback err result] /\
  (forall sigs, forallb cleanSignal sigs = true ->
     (events this sigs = [] \/
      exists inc rest, events this sigs = ParseResponse inc :: rest) /\
     (callbacks (events this sigs) <> [] ->
      existsb isEnd sigs = true /\ existsb isDeserialized sigs = true)).
Proof.
  intros Hsc%Z.eqb_neq. unfold events. simpl. rewrite Hsc. simpl.
  repeat (split; [done|]).
  intros sigs Hclean. split.
  - by apply run_clean_parse_first.
  - intros Hcb. apply run_clean_callback_needs_both in Hcb as [He Hd]; [|done].
    simpl in He, Hd. destruct He as [He|He]; [done|].
    by destruct Hd as [Hd|Hd].
Qed.

Lemma run_app sigs1 : forall sigs2 this call,
  run this call (sigs1 ++ sigs2) =
    let st := run this call sigs1 in
    let st' := run st.1.1 st.1.2 sigs2 in
    (st'.1.1, st'.1.2, (st.2 ++ st'.2)%list).
Proof.
  induction sigs1 as [|s sigs1 IH]; intros sigs2 this call.
  - simpl. by destruct (run this call sigs2) as [[? ?] ?].
  - change ((s :: sigs1) ++ sigs2)%list with (s :: (sigs1 ++ sigs2))%list.
    rewrite !run_cons. cbv zeta. rewrite IH. cbv zeta. simpl.
    by rewrite app_assoc.
Qed.

(** The flag [ended] is set by the first 'end' or 'error' and stays. *)
Lemma run_ended sigs : forall this call,
  ended call = true \/
  existsb (fun s => isEnd s || isRequestError s) sigs = true ->
  ended (run this call sigs).1.2 = true.
Proof.
  induction sigs as [|s sigs IH]; intros this call Hor.
  - simpl in *. by destruct Hor.
  - rewrite run_cons. cbv zeta. cbn [fst snd]. apply IH.
    destruct s as [err|err statusCode incoming|err result]; simpl in *.
    + left. by destruct (ended call) eqn:He.
    + left. by destruct (onEnd this err statusCode incoming).
    + destruct (ended call) eqn:He; simpl; [by left|].
      destruct Hor as [?|?]; [done|by right].
Qed.

Lemma run_deserialized_pending ds : forall this call,
  ended call = false ->
  run this call (map deserialized ds) =
    (this,
     {| ended := false; endListeners := (endListeners call ++ ds)%list |},
     []).
Proof.
  induction ds as [|[err result] ds IH]; intros this call Hended.
  - simpl. rewrite app_nil_r. by destruct call; simpl in *; subst.
  - simpl. rewrite Hended. rewrite IH by done. simpl.
    by rewrite <- app_assoc.
Qed.

Lemma run_deserialized_ended ds : forall this call,
  ended call = true ->
  run this call (map deserialized ds) =
    (this, call, map (fun d => Callback d.1 d.2) ds).
Proof.
  induction ds as [|[err result] ds IH]; intros this call Hended.
  - done.
  - simpl. rewrite Hended. by rewrite IH.
Qed.

End Signals.

(** ** The constructor *)

(** *** The statements of the constructor, one field each *)

Lemma defaultHost_eq o :
  defaultHost o = set_host (Some (orStr (host o) "localhost")) o.
Proof.
  destruct o as [[h|] p u pa ck ka gz ua hd ba en ren me];
    unfold defaultHost; simpl; [|done].
  by destruct (String.eqb h "").
Qed.

Lemma defaultPort_eq sec o :
  defaultPort sec o =
    set_port (if truthy (port o) then port o
              else JNum (if sec then 443 else 80)) o.
Proof.
  destruct o as [h p u pa ck ka gz ua hd ba en ren me];
    unfold defaultPort; simpl.
  by destruct (truthy p).
Qed.

Lemma defaultPath_eq o :
  defaultPath o = set_path (Some (orStr (path o) "/")) o.
Proof.
  destruct o as [h p u [pa|] ck ka gz ua hd ba en ren me];
    unfold defaultPath; simpl; [|done].
  by destruct (String.eqb pa "").
Qed.

Lemma defaultKeepAlive_eq o :
  defaultKeepAlive o = set_keepAlive (Some (default 0 (keepAlive o))) o.
Proof.
  unfold defaultKeepAlive. destruct (keepAlive o) as [n|]; simpl; [|done].
  destruct (n =? 0) eqn:Hn; [|done]. apply Z.eqb_eq in Hn. by subst.
Qed.

(** The path that [slashPath] leaves for a path [p] *)
Lemma slashPath_eq o p :
  path o = Some p ->
  slashPath o =
    set_path (Some (if String.eqb p "" then p
                    else if String.eqb (charAt0 p) "/" then p
                    else "/" +:+ p)) o.
Proof.
  destruct o as [h po u pa ck ka gz ua hd ba en ren me]; simpl.
  intros ->. unfold slashPath; simpl.
  destruct (String.eqb p ""); simpl; [done|].
  by destruct (String.eqb (charAt0 p) "/").
Qed.

Lemma orStr_nonempty a b : b <> "" -> orStr a b <> "".
Proof.
  intros Hb. destruct a as [s|]; simpl; [|done].
  destruct (String.eqb s "") eqn:Hs; [done|]. by apply String.eqb_neq in Hs.
Qed.

Lemma charAt0_slash p :
  String.eqb (charAt0 p) "/" = true -> exists rest, p = String "/"%char rest.
Proof.
  destruct p as [|c rest]; [done|].
  intros H%String.eqb_eq. injection H as ->. eauto.
Qed.

Section ConstructorProperties.

Variable url_parse : string -> Url.t.
Variable package_version : string.

(** *** The fields the defaults leave alone *)

Lemma resolveUrl_untouched o :
  headers (resolveUrl url_parse o) = headers o /\
  basic_auth (resolveUrl url_parse o) = basic_auth o /\
  cookies (resolveUrl url_parse o) = cookies o /\
  userAgent (resolveUrl url_parse o) = userAgent o /\
  gzip (resolveUrl url_parse o) = gzip o /\
  keepAlive (resolveUrl url_parse o) = keepAlive o /\
  encoding (resolveUrl url_parse o) = encoding o /\
  responseEncoding (resolveUrl url_parse o) = responseEncoding o.
Proof. unfold resolveUrl. by destruct (url o). Qed.

(** The options after the defaults, field by field, from the options
    [r] that the [url] field has been resolved in *)
Lemma normalizeOptions_eq (sec : bool) (o : Options) :
  let r := resolveUrl url_parse o in
  let h := orStr (host r) "localhost" in
  let po := if truthy (port r) then port r
            else JNum (if sec then 443 else 80) in
  let p0 := orStr (path r) "/" in
  let pa := if String.eqb (charAt0 p0) "/" then p0 else "/" +:+ p0 in
  normalizeOptions url_parse sec o =
    {| host := Some h; port := po;
       url := Some (((if sec then "https://" else "http://") +:+ h +:+ ":")
                    +:+ (toString po +:+ pa));
       path := Some pa;
       cookies := cookies o;
       keepAlive := Some (default 0 (keepAlive o));
       gzip := if truthy (gzip o) then gzip o else JBool false;
       userAgent := userAgent o; headers := headers o;
       basic_auth := basic_auth o; encoding := encoding o;
       responseEncoding := responseEncoding o; method := method r |}.
Proof.
  intros r h po p0 pa.
  destruct (resolveUrl_untouched o)
    as (<- & <- & <- & <- & <- & <- & <- & <-).
  unfold normalizeOptions. fold r.
  rewrite defaultHost_eq, defaultPort_eq, defaultPath_eq.
  rewrite (slashPath_eq _ p0) by reflexivity.
  rewrite defaultKeepAlive_eq.
  assert (String.eqb p0 "" = false) as Hp0.
  { apply String.eqb_neq, orStr_nonempty. done. }
  rewrite Hp0. destruct r; reflexivity.
Qed.

Lemma normalizeOptions_headers sec o :
  headers (normalizeOptions url_parse sec o) = headers o.
Proof. by rewrite normalizeOptions_eq. Qed.

Lemma normalizeOptions_cookies sec o :
  cookies (normalizeOptions url_parse sec o) = cookies o.
Proof. by rewrite normalizeOptions_eq. Qed.

Lemma normalizeOptions_basic_auth sec o :
  basic_auth (normalizeOptions url_parse sec o) = basic_auth o.
Proof. by rewrite normalizeOptions_eq. Qed.

(** *** The headers *)

Lemma truthy_defaultGzip g :
  truthy (if truthy g then g else JBool false) = truthy g.
Proof. by destruct (truthy g) eqn:Hg. Qed.

Lemma both_defaultGzip g :
  (if truthy g then g else JBool false) = JStr "both" <-> g = JStr "both".
Proof.
  split.
  - destruct (truthy g); [done|discriminate].
  - by intros ->.
Qed.

Lemma normalizeOptions_userAgent (sec : bool) o :
  userAgent (normalizeOptions url_parse sec o) = userAgent o.
Proof. by rewrite normalizeOptions_eq. Qed.

Lemma normalizeOptions_gzip (sec : bool) o :
  gzip (normalizeOptions url_parse sec o)
    = if truthy (gzip o) then gzip o else JBool false.
Proof. by rewrite normalizeOptions_eq. Qed.

Lemma addDefaults_supplied ds : forall (hs : gmap string string) k v,
  hs !! k = Some v -> addDefaults ds hs !! k = Some v.
Proof.
  induction ds as [|[k' v'] ds IH]; intros hs k v Hk; [done|].
  simpl. apply IH. destruct (hs !! k') eqn:Hk'; [done|].
  rewrite lookup_insert_ne; [done|]. intros ->. congruence.
Qed.

Lemma addDefaults_other ds : forall (hs : gmap string string) k,
  k ∉ ds.*1 -> addDefaults ds hs !! k = hs !! k.
Proof.
  induction ds as [|[k' v'] ds IH]; intros hs k Hk; [done|].
  simpl in *. apply not_elem_of_cons in Hk as [Hne Hk].
  rewrite IH by done. destruct (hs !! k'); [done|].
  by rewrite lookup_insert_ne.
Qed.

Lemma addDefaults_default ds : forall (hs : gmap string string) k v,
  NoDup ds.*1 -> (k, v) ∈ ds -> hs !! k = None ->
  addDefaults ds hs !! k = Some v.
Proof.
  induction ds as [|[k' v'] ds IH]; intros hs k v Hnd Hin Hk.
  - by apply elem_of_nil in Hin.
  - simpl in *. apply NoDup_cons in Hnd as [Hk' Hnd].
    apply elem_of_cons in Hin as [Heq|Hin].
    + injection Heq as <- <-. rewrite Hk.
      apply addDefaults_supplied, lookup_insert_eq.
    + assert (k <> k') as Hne.
      { intros ->. apply Hk'. by apply (list_elem_of_fmap_2 fst _ (k', v)). }
      apply IH; [done..|].
      destruct (hs !! k'); [done|]. by rewrite lookup_insert_ne.
Qed.

Lemma defaultHeaders_NoDup o : NoDup (defaultHeaders package_version o).*1.
Proof.
  unfold defaultHeaders.
  destruct (truthy (gzip o)), (decide (gzip o = JStr "both")); simpl;
    by apply (bool_decide_unpack _).
Qed.

Lemma defaultHeaders_no_Authorization o :
  "Authorization" ∉ (defaultHeaders package_version o).*1.
Proof.
  unfold defaultHeaders.
  destruct (truthy (gzip o)), (decide (gzip o = JStr "both")); simpl;
    by apply (bool_decide_unpack _).
Qed.

Lemma addAuthorization_lookup o (hs : gmap string string) :
  addAuthorization o hs !! "Authorization" = authorizationOf o hs.
Proof.
  unfold addAuthorization, authorizationOf.
  destruct (hs !! "Authorization") eqn:Hh; [done|].
  destruct (basic_auth o) as [[[u|] [p|]]|]; simpl; try done.
  by rewrite lookup_insert_eq.
Qed.

Lemma addAuthorization_other o (hs : gmap string string) k :
  k <> "Authorization" -> addAuthorization o hs !! k = hs !! k.
Proof.
  intros Hk. unfold addAuthorization.
  destruct (hs !! "Authorization"); [done|].
  destruct (basic_auth o) as [[[u|] [p|]]|]; simpl; try done.
  by rewrite lookup_insert_ne.
Qed.

(** The headers that lines 69-84 and 97-101 add where the caller
    supplied none, header by header *)
Lemma addDefaults_defaultHeaders o (hs : gmap string string) :
  let hs' := addDefaults (defaultHeaders package_version o) hs in
  (hs !! "User-Agent" = None ->
   hs' !! "User-Agent"
     = Some (orStr (userAgent o)
               ("NodeJS XML-RPC Client/" +:+ package_version))) /\
  (hs !! "Content-Type" = None -> hs' !! "Content-Type" = Some "text/xml") /\
  (hs !! "Accept" = None -> hs' !! "Accept" = Some "text/xml") /\
  (hs !! "Accept-Charset" = None -> hs' !! "Accept-Charset" = Some "UTF8") /\
  (hs !! "Connection" = None -> hs' !! "Connection" = Some "Keep-Alive") /\
  (hs !! "Accept-Encoding" = None ->
   hs' !! "Accept-Encoding" = if truthy (gzip o) then Some "gzip" else None) /\
  (hs !! "Content-Encoding" = None ->
   hs' !! "Content-Encoding"
     = if decide (gzip o = JStr "both") then Some "gzip" else None).
Proof.
  cbv zeta. pose proof (defaultHeaders_NoDup o) as Hnd.
  unfold defaultHeaders in *.
  repeat split; intros Hnone.
  1-5: apply addDefaults_default; [done|set_solver|done].
  - destruct (truthy (gzip o)).
    + apply addDefaults_default; [done|set_solver|done].
    + rewrite addDefaults_other; [done|].
      destruct (decide (gzip o = JStr "both")); simpl;
        by apply (bool_decide_unpack _).
  - destruct (decide (gzip o = JStr "both")).
    + apply addDefaults_default; [done|set_solver|done].
    + rewrite addDefaults_other; [done|].
      destruct (truthy (gzip o)); simpl; by apply (bool_decide_unpack _).
Qed.

(** *** What the constructor returns *)

Lemma newLoc_fresh {A} (m : gmap nat A) : m !! newLoc m = None.
Proof. unfold newLoc. apply not_elem_of_dom, is_fresh. Qed.

Opaque normalizeOptions resolveUrl defaultHeaders addDefaults
  addAuthorization newLoc.

Lemma Client_eq options (sec : bool) σ :
  wellFormed options σ = true ->
  let o0 := inputOptions url_parse options σ in
  let l := match options with
           | InString _ => newLoc (optionsObjects σ)
           | InObject l => l
           end in
  let lh := match headers o0 with
            | Some lh => lh
            | None => newLoc (headersObjects σ)
            end in
  let o1 := normalizeOptions url_parse sec o0 in
  let hs := addDefaults (defaultHeaders package_version o1)
              (addAuthorization o1 (inputHeaders url_parse options σ)) in
  Client url_parse package_version options sec σ =
    Return
      ({| this_options := l;
          this_isSecure := sec;
          this_processors :=
            if truthy (cookies o0) then [CookiesProcessor] else [];
          this_cookies := if truthy (cookies o0) then Some ∅ else None;
          this_agent := agentOptions o1 |},
       {| optionsObjects :=
            <[l := set_method (Some "POST") (set_headers (Some lh) o1)]>
              (optionsObjects σ);
          headersObjects := <[lh := hs]> (headersObjects σ) |}).
Proof.
  intros Hwf. cbv zeta.
  unfold Client, inputHeaders.
  destruct options as [uri|l0]; simpl in *.
  - unfold loadOptions; simpl. rewrite lookup_insert_eq; simpl.
    rewrite normalizeOptions_headers, normalizeOptions_cookies. simpl.
    unfold loadHeaders; simpl. rewrite lookup_insert_eq; simpl.
    unfold storeHeaders, storeOptions; simpl.
    by rewrite !insert_insert_eq.
  - unfold loadOptions.
    destruct (optionsObjects σ !! l0) as [o|] eqn:Ho; [|done]. simpl in *.
    rewrite normalizeOptions_headers, normalizeOptions_cookies.
    destruct (headers o) as [lh0|] eqn:Hh; simpl in *.
    + apply bool_decide_eq_true in Hwf as [hs0 Hhs0].
      unfold loadHeaders. by rewrite Hhs0.
    + unfold loadHeaders; simpl. rewrite lookup_insert_eq; simpl.
      unfold storeHeaders, storeOptions; simpl.
      by rewrite insert_insert_eq.
Qed.
(** *** The claims about the constructor *)

(** C9. For every argument of the constructor, a URI string or an options
    object, the constructor returns, and the path of the configuration it
    leaves begins with a slash: a missing (or empty) path becomes the
    slash, a path that does not start with a slash gets one prepended, and
    a path that starts with one is kept. The path meant is the one of the
    [url] field when the options have one. *)
Theorem Client_path_begins_with_slash options (sec : bool) σ :
  wellFormed options σ = true ->
  exists c σ' o' rest,
    Client url_parse package_version options sec σ = Return (c, σ') /\
    optionsObjects σ' !! this_options c = Some o' /\
    path o' = Some (String "/"%char rest) /\
    let p := path (resolveUrl url_parse (inputOptions url_parse options σ)) in
    (truthyStr p = false -> path o' = Some "/") /\
    (forall s, p = Some s -> s <> "" -> charAt0 s <> "/" ->
               path o' = Some ("/" +:+ s)) /\
    (forall s, p = Some s -> charAt0 s = "/" -> path o' = Some s).
Proof.
  intros Hwf. rewrite (Client_eq _ _ _ Hwf). simpl.
  set (o0 := inputOptions url_parse options σ).
  pose proof (normalizeOptions_eq sec o0) as Heq. simpl in Heq.
  set (p0 := orStr (path (resolveUrl url_parse o0)) "/") in *.
  assert (exists rest,
    (if String.eqb (charAt0 p0) "/" then p0 else "/" +:+ p0)
      = String "/"%char rest) as [rest Hrest].
  { destruct (String.eqb (charAt0 p0) "/") eqn:Hc; [|by eexists].
    by apply charAt0_slash. }
  eexists _, _, _, rest. split; [done|]. simpl.
  rewrite lookup_insert_eq. split; [done|].
  rewrite Heq. simpl. split; [by rewrite Hrest|].
  subst p0. destruct (path (resolveUrl url_parse o0)) as [s0|]; simpl.
  - split; [|split].
    + intros Hs. apply negb_false_iff in Hs. by rewrite Hs.
    + intros s [= ->] Hne Hc. apply String.eqb_neq in Hne, Hc.
      by rewrite Hne, Hc.
    + intros s [= ->] Hc.
      destruct (String.eqb s "") eqn:Hs.
      { apply String.eqb_eq in Hs. by subst. }
      apply String.eqb_eq in Hc. by rewrite Hc.
  - by repeat split.
Qed.

(** C8. For every argument of the constructor, the headers of the
    configuration hold [Authorization: Basic base64(user:pass)] made from
    [basic_auth] exactly when the caller supplied no [Authorization] header
    and [basic_auth] has both [user] and [pass]; a header the caller
    supplied is kept as it is, and with no header and no full credentials
    there is none. *)
Theorem Client_authorization_header options (sec : bool) σ :
  wellFormed options σ = true ->
  exists c σ' hs',
    Client url_parse package_version options sec σ = Return (c, σ') /\
    headersOf (this_options c) σ' = Some hs' /\
    let hs0 := inputHeaders url_parse options σ in
    let ba := basic_auth (inputOptions url_parse options σ) in
    (forall v, hs0 !! "Authorization" = Some v ->
               hs' !! "Authorization" = Some v) /\
    (forall u p, hs0 !! "Authorization" = None ->
                 ba = Some {| user := Some u; pass := Some p |} ->
                 hs' !! "Authorization"
                   = Some ("Basic " +:+ base64 (utf8ToBytes (u +:+ ":" +:+ p)))) /\
    (hs0 !! "Authorization" = None ->
     (ba = None \/ exists b, ba = Some b /\ (user b = None \/ pass b = None)) ->
     hs' !! "Authorization" = None).
Proof.
  intros Hwf. rewrite (Client_eq _ _ _ Hwf).
  eexists _, _, _. split; [done|]. split.
  { unfold headersOf. simpl. rewrite lookup_insert_eq. simpl.
    by rewrite lookup_insert_eq. }
  cbv zeta.
  rewrite addDefaults_other by apply defaultHeaders_no_Authorization.
  rewrite addAuthorization_lookup. unfold authorizationOf.
  rewrite normalizeOptions_basic_auth.
  split; [|split].
  - by intros v ->.
  - by intros u p -> ->.
  - intros -> [->|(b & -> & [Hb|Hb])]; [done| |]; rewrite Hb; [done|].
    by destruct (user b).
Qed.

(** C10. When the argument is an options object, the constructor keeps
    the caller's object as the configuration of the client and writes into
    it: the location the client holds is the location passed, no other
    options object changes, and the object at that location now has the
    defaults for host, port, path, keepAlive and gzip, the canonical URL
    in [url], and [method] set to POST. The headers object is the caller's
    own when the options had one (a new one is put into the options
    otherwise); it keeps every header the caller supplied, and where the
    caller supplied none it gains [User-Agent], [Content-Type: text/xml],
    [Accept: text/xml], [Accept-Charset: UTF8], [Connection: Keep-Alive],
    the compression headers of the gzip mode, and the [Authorization]
    header of [basic_auth]. *)
Theorem Client_mutates_callers_options (l : nat) (sec : bool) σ :
  wellFormed (InObject l) σ = true ->
  exists c σ' o o' lh hs',
    Client url_parse package_version (InObject l) sec σ = Return (c, σ') /\
    this_options c = l /\
    optionsObjects σ !! l = Some o /\
    optionsObjects σ' = <[l := o']> (optionsObjects σ) /\
    (let r := resolveUrl url_parse o in
     host o' = Some (orStr (host r) "localhost") /\
     port o' = (if truthy (port r) then port r
                else JNum (if sec then 443 else 80)) /\
     (exists rest, path o' = Some (String "/"%char rest)) /\
     path o' = Some (let p := orStr (path r) "/" in
                     if String.eqb (charAt0 p) "/" then p else "/" +:+ p) /\
     keepAlive o' = Some (default 0 (keepAlive o)) /\
     gzip o' = (if truthy (gzip o) then gzip o else JBool false) /\
     url o' = Some (((if sec then "https://" else "http://")
                     +:+ strOf (host o') +:+ ":")
                    +:+ (toString (port o') +:+ strOf (path o'))) /\
     method o' = Some "POST") /\
    headers o' = Some lh /\
    (forall lh0, headers o = Some lh0 -> lh = lh0) /\
    (headers o = None -> headersObjects σ !! lh = None) /\
    headersObjects σ' = <[lh := hs']> (headersObjects σ) /\
    (let hs0 := inputHeaders url_parse (InObject l) σ in
     (forall k v, hs0 !! k = Some v -> hs' !! k = Some v) /\
     (hs0 !! "User-Agent" = None ->
      hs' !! "User-Agent"
        = Some (orStr (userAgent o)
                  ("NodeJS XML-RPC Client/" +:+ package_version))) /\
     (hs0 !! "Content-Type" = None ->
      hs' !! "Content-Type" = Some "text/xml") /\
     (hs0 !! "Accept" = None -> hs' !! "Accept" = Some "text/xml") /\
     (hs0 !! "Accept-Charset" = None ->
      hs' !! "Accept-Charset" = Some "UTF8") /\
     (hs0 !! "Connection" = None ->
      hs' !! "Connection" = Some "Keep-Alive") /\
     (hs0 !! "Accept-Encoding" = None ->
      hs' !! "Accept-Encoding"
        = if truthy (gzip o) then Some "gzip" else None) /\
     (hs0 !! "Content-Encoding" = None ->
      hs' !! "Content-Encoding"
        = if decide (gzip o = JStr "both") then Some "gzip" else None) /\
     (hs0 !! "Authorization" = None ->
      hs' !! "Authorization"
        = match basic_auth o with
          | Some {| user := Some u; pass := Some p |} =>
              Some ("Basic " +:+ base64 (utf8ToBytes (u +:+ ":" +:+ p)))
          | _ => None
          end)).
Proof.
  intros Hwf. rewrite (Client_eq _ _ _ Hwf). simpl in Hwf.
  destruct (optionsObjects σ !! l) as [o|] eqn:Ho; [|done].
  assert (inputOptions url_parse (InObject l) σ = o) as Hio.
  { simpl. by rewrite Ho. }
  rewrite Hio.
  set (hs0 := inputHeaders url_parse (InObject l) σ).
  set (o1 := normalizeOptions url_parse sec o).
  eexists _, _, o, _, _, _. split; [done|]. simpl.
  split; [done|]. split; [done|]. split; [done|].
  pose proof (normalizeOptions_eq sec o) as Heq. simpl in Heq. fold o1 in Heq.
  split.
  { rewrite Heq. simpl.
    set (p0 := orStr (path (resolveUrl url_parse o)) "/").
    repeat (split; [done|]). split; [|done].
    destruct (String.eqb (charAt0 p0) "/") eqn:Hc; [|by eexists].
    apply charAt0_slash in Hc as [rest ->]. by eexists. }
  split; [done|]. split.
  { intros lh0 Hlh0. unfold o1. by rewrite Hlh0. }
  split.
  { intros Hno. rewrite Hno. apply newLoc_fresh. }
  split; [done|].
  assert (forall k, k <> "Authorization" ->
            addAuthorization o1 hs0 !! k = hs0 !! k) as Hother.
  { intros k Hk. by apply addAuthorization_other. }
  assert (addAuthorization o1 hs0 !! "Authorization" = authorizationOf o hs0)
    as Hauth.
  { rewrite addAuthorization_lookup. unfold authorizationOf, o1.
    by rewrite normalizeOptions_basic_auth. }
  assert (userAgent o1 = userAgent o) as Hua
    by apply normalizeOptions_userAgent.
  assert (truthy (gzip o1) = truthy (gzip o)) as Hgt.
  { unfold o1. rewrite normalizeOptions_gzip. apply truthy_defaultGzip. }
  assert (gzip o1 = JStr "both" <-> gzip o = JStr "both") as Hgb.
  { unfold o1. rewrite normalizeOptions_gzip. apply both_defaultGzip. }
  destruct (addDefaults_defaultHeaders o1 (addAuthorization o1 hs0))
    as (Hd1 & Hd2 & Hd3 & Hd4 & Hd5 & Hd6 & Hd7).
  rewrite Hua in Hd1. rewrite Hgt in Hd6.
  split.
  { intros k v Hk. apply addDefaults_supplied.
    destruct (decide (k = "Authorization")) as [->|Hne].
    - rewrite Hauth. unfold authorizationOf. by rewrite Hk.
    - by rewrite Hother. }
  split; [intros Hn; apply Hd1; by rewrite Hother|].
  split; [intros Hn; apply Hd2; by rewrite Hother|].
  split; [intros Hn; apply Hd3; by rewrite Hother|].
  split; [intros Hn; apply Hd4; by rewrite Hother|].
  split; [intros Hn; apply Hd5; by rewrite Hother|].
  split; [intros Hn; apply Hd6; by rewrite Hother|].
  split.
  { intros Hn. rewrite Hd7 by by rewrite Hother.
    destruct (decide (gzip o1 = JStr "both")) as [H1|H1],
             (decide (gzip o = JStr "both")) as [H2|H2]; try done.
    - by apply Hgb in H1.
    - by apply Hgb in H2. }
  intros Hn.
  rewrite addDefaults_other by apply defaultHeaders_no_Authorization.
  rewrite Hauth. unfold authorizationOf. rewrite Hn.
  by destruct (basic_auth o) as [[[u|] [p|]]|].
Qed.

(** C7. A client built from options without [cookies] throws the string
    'Cookies support is not turned on for this client instance' from every
    [getCookie] and [setCookie], at once after the construction and after
    any signals of its calls; a client built with [cookies] returns from
    both, then and later. The accessors read the client only: they build
    no request and take no store, so nothing is sent before the throw. *)
Theorem cookie_accessors_guard options (sec : bool) σ (Value : Type)
    (sigs : list (Signal (Value := Value))) call :
  wellFormed options σ = true ->
  exists c σ',
    Client url_parse package_version options sec σ = Return (c, σ') /\
    let later := (run c call sigs).1.1 in
    if truthy (cookies (inputOptions url_parse options σ))
    then (forall name, getCookie c name = Return None) /\
         (forall name, exists v, getCookie later name = Return v) /\
         (forall name value, exists c',
            setCookie later name value = Return c' /\
            this_options c' = this_options c /\
            getCookie c' name = Return (Some value))
    else (forall name, getCookie later name = Throw cookiesOff) /\
         (forall name value, setCookie later name value = Throw cookiesOff).
Proof.
  intros Hwf. rewrite (Client_eq _ _ _ Hwf).
  eexists _, _. split; [done|]. cbv zeta.
  match goal with
  | |- context [run ?c call sigs] =>
      pose proof (run_later sigs c call) as (Ho & _ & _ & _ & Hn & Hj);
      revert Ho Hn Hj; generalize (run c call sigs).1.1 as later
  end.
  intros later. cbn [this_cookies this_options].
  unfold getCookie, setCookie. cbn [this_cookies].
  destruct (truthy (cookies (inputOptions url_parse options σ))).
  - intros Ho _ [jar Hjar]; [done|]. rewrite Hjar.
    split; [done|]. split; [by eexists|].
    intros name value. eexists. split; [done|]. split; [done|].
    unfold Cookies.get, Cookies.set. cbn [this_cookies set_cookies].
    by rewrite lookup_insert_eq.
  - intros _ Hn _. by rewrite Hn.
Qed.

Transparent normalizeOptions resolveUrl defaultHeaders addDefaults
  addAuthorization newLoc.

End ConstructorProperties.

(** ** [methodCall] before it returns *)

Section MethodCallProperties.

Context {Param : Type}.
Variable serializeMethodCall :
  string -> list Param -> option string -> thrown + string.

Lemma methodCall_eq this method params σ o lh hs xml :
  optionsObjects σ !! this_options this = Some o ->
  headers o = Some lh ->
  headersObjects σ !! lh = Some hs ->
  serializeMethodCall method params (encoding o) = inr xml ->
  methodCall serializeMethodCall this method params σ =
    Return
      (if gzipBoth o
       then composedRequest this o hs
       else request_send (BodyString xml)
              (request_set "Content-Length" (HNum (byteLength xml "utf8"))
                 (composedRequest this o hs)),
       storeHeaders lh (composeRequest this hs) σ).
Proof.
  intros Ho Hlh Hhs Hxml. unfold methodCall, loadOptions, loadHeaders.
  rewrite Ho. simpl. rewrite Hxml. simpl. rewrite Hlh. simpl.
  by rewrite Hhs.
Qed.

Lemma methodCall_throws this method params σ o t :
  optionsObjects σ !! this_options this = Some o ->
  serializeMethodCall method params (encoding o) = inl t ->
  methodCall serializeMethodCall this method params σ = Throw t.
Proof.
  intros Ho Ht. unfold methodCall, loadOptions. rewrite Ho. simpl.
  by rewrite Ht.
Qed.

Lemma storeHeaders_same lh (hs : gmap string string) σ :
  headersObjects σ !! lh = Some hs -> storeHeaders lh hs σ = σ.
Proof.
  intros Hhs. destruct σ as [os hss]. unfold storeHeaders. simpl in *.
  by rewrite insert_id.
Qed.

(** C3, as amended. [methodCall] runs [composeRequest] over the headers
    object of the stored configuration itself, not over a copy: after the
    call the store holds, at the location of that object, the headers that
    [composeRequest] left. The options object is not written. With no
    header processor (a client without cookies) the store is the one
    before the call; with the cookie jar as processor the stored headers
    keep the [Cookie] header of the jar after the call. *)
Theorem methodCall_composes_stored_headers this method params σ o lh hs xml :
  optionsObjects σ !! this_options this = Some o ->
  headers o = Some lh ->
  headersObjects σ !! lh = Some hs ->
  serializeMethodCall method params (encoding o) = inr xml ->
  exists request σ',
    methodCall serializeMethodCall this method params σ
      = Return (request, σ') /\
    optionsObjects σ' = optionsObjects σ /\
    headersObjects σ' = <[lh := composeRequest this hs]> (headersObjects σ) /\
    headersOf (this_options this) σ' = Some (composeRequest this hs) /\
    (this_processors this = [] -> σ' = σ) /\
    (forall jar, this_processors this = [CookiesProcessor] ->
                 this_cookies this = Some jar ->
                 storedHeader (this_options this) "Cookie" σ'
                   = Some (Cookies.toString jar)).
Proof.
  intros Ho Hlh Hhs Hxml.
  rewrite (methodCall_eq _ _ _ _ _ _ _ _ Ho Hlh Hhs Hxml).
  eexists _, _. split; [done|]. split; [done|]. split; [done|].
  assert (headersOf (this_options this)
            (storeHeaders lh (composeRequest this hs) σ)
          = Some (composeRequest this hs)) as Hof.
  { unfold headersOf, storeHeaders. cbn [optionsObjects headersObjects].
    rewrite Ho. simpl. rewrite Hlh. simpl. by rewrite lookup_insert_eq. }
  split; [done|]. split.
  - intros Hnone. unfold composeRequest. rewrite Hnone. simpl.
    by apply storeHeaders_same.
  - intros jar Hp Hjar. unfold storedHeader. rewrite Hof. simpl.
    unfold composeRequest. rewrite Hp, Hjar. simpl.
    unfold Cookies.composeRequest. by rewrite lookup_insert_eq.
Qed.

Lemma gzipBoth_false o : gzip o <> JStr "both" -> gzipBoth o = false.
Proof.
  intros Hnot. unfold gzipBoth.
  by rewrite (bool_decide_eq_false_2 _ Hnot), andb_false_r.
Qed.

Lemma gzipBoth_true o : gzip o = JStr "both" -> gzipBoth o = true.
Proof. intros Hboth. unfold gzipBoth. by rewrite Hboth. Qed.

(** C6, as amended. With a gzip mode other than 'both' the body sent is
    the XML itself and Content-Length is the number of bytes of its UTF-8
    encoding, whatever the configured encoding is. *)
Theorem methodCall_content_length this method params σ o lh hs xml :
  optionsObjects σ !! this_options this = Some o ->
  headers o = Some lh ->
  headersObjects σ !! lh = Some hs ->
  serializeMethodCall method params (encoding o) = inr xml ->
  gzip o <> JStr "both" ->
  exists request σ',
    methodCall serializeMethodCall this method params σ
      = Return (request, σ') /\
    req_header request !! "Content-Length"
      = Some (HNum (length (utf8ToBytes xml))) /\
    req_data request = Some (BodyString xml).
Proof.
  intros Ho Hlh Hhs Hxml Hnot.
  rewrite (methodCall_eq _ _ _ _ _ _ _ _ Ho Hlh Hhs Hxml).
  rewrite (gzipBoth_false _ Hnot).
  eexists _, _. split; [done|]. simpl. by rewrite lookup_insert_eq.
Qed.

(** In gzip mode 'both' [methodCall] returns with the request as lines
    150-152 left it: it has no body yet, and no Content-Length but one the
    configuration may hold. *)
Lemma methodCall_gzip_both this method params σ o lh hs xml :
  optionsObjects σ !! this_options this = Some o ->
  headers o = Some lh ->
  headersObjects σ !! lh = Some hs ->
  serializeMethodCall method params (encoding o) = inr xml ->
  gzip o = JStr "both" ->
  methodCall serializeMethodCall this method params σ
    = Return (composedRequest this o hs,
              storeHeaders lh (composeRequest this hs) σ) /\
  req_data (composedRequest this o hs) = None.
Proof.
  intros Ho Hlh Hhs Hxml Hboth.
  rewrite (methodCall_eq _ _ _ _ _ _ _ _ Ho Hlh Hhs Hxml).
  by rewrite (gzipBoth_true _ Hboth).
Qed.

(** The callback of zlib.gzip puts the buffer and its length on the
    request, and throws when zlib reports an error. *)
Lemma gzipCallback_buffer (buffer : Buffer) request :
  exists request',
    gzipCallback (inr buffer) request = Return request' /\
    req_header request' !! "Content-Length" = Some (HNum (length buffer)) /\
    req_data request' = Some (BodyBuffer buffer).
Proof.
  eexists. split; [done|]. simpl. by rewrite lookup_insert_eq.
Qed.

Lemma gzipCallback_error (err : jsError) request :
  gzipCallback (inl err) request = Throw ThrownTypeError.
Proof. done. Qed.

Context {Value : Type}.

(** C4, as amended. At a call whose transport has neither ended nor
    failed, whatever results of the deserializer are waiting, the error of
    the transport, the error that the end of the transport carries and the
    Not Found error of a 404 reach the caller as the first argument of a
    call of the callback; so does an error of the deserializer when the
    transport ends without error and with a status other than 404,
    whether it comes before or after that end. An 'error' of the request
    that arrives once the transport has ended or failed is dropped: the
    callback is called for it neither then nor later. [methodCall]
    catches nothing: if the Serializer throws, that exception is the
    outcome of [methodCall]; if it returns, [methodCall] returns. *)
Theorem methodCall_error_propagation this method params σ o
    (e : jsError) (statusCode : Z) incoming (result : option Value)
    (ds ds' : list (option jsError * option Value)) :
  optionsObjects σ !! this_options this = Some o ->
  (forall t, serializeMethodCall method params (encoding o) = inl t ->
     methodCall serializeMethodCall this method params σ = Throw t) /\
  (forall xml lh hs,
     serializeMethodCall method params (encoding o) = inr xml ->
     headers o = Some lh -> headersObjects σ !! lh = Some hs ->
     exists request σ',
       methodCall serializeMethodCall this method params σ
         = Return (request, σ')) /\
  events this (map deserialized ds ++ [RequestError e])
    = [Callback (Some e) None] /\
  (exists rest,
     events this (map deserialized ds
                  ++ [RequestEnd (Some e) statusCode incoming])
       = Callback (Some e) None :: rest) /\
  (exists rest,
     events this (map deserialized ds ++ [RequestEnd None 404 incoming])
       = Callback (Some notFound) None :: rest) /\
  (statusCode <> 404 -> In (Some e, result) (ds ++ ds') ->
   In (Callback (Some e) result)
      (events this (map deserialized ds
                    ++ RequestEnd None statusCode incoming
                       :: map deserialized ds'))) /\
  (forall sigs sigs' : list (Signal (Value := Value)),
     existsb (fun s => isEnd s || isRequestError s) sigs = true ->
     events this (sigs ++ RequestError e :: sigs')
       = events this (sigs ++ sigs')).
Proof.
  intros Ho. split; [|split].
  - intros t Ht. by apply (methodCall_throws _ _ _ _ o).
  - intros xml lh hs Hxml Hlh Hhs.
    rewrite (methodCall_eq _ _ _ _ _ _ _ _ Ho Hlh Hhs Hxml). by eexists _, _.
  - unfold events. rewrite !run_app. cbv zeta.
    rewrite !run_deserialized_pending by done. cbn [fst snd app].
    split; [done|]. split; [by eexists|]. split; [by eexists|]. split.
    + intros Hsc%Z.eqb_neq Hin. rewrite run_cons. cbv zeta. simpl.
      rewrite Hsc. simpl. rewrite run_deserialized_ended by done. simpl.
      right. rewrite <- map_app.
      apply (in_map (fun d => Callback d.1 d.2) _ _ Hin).
    + intros sigs sigs' Hex.
      rewrite !run_app. cbv zeta. rewrite run_cons. cbv zeta.
      pose proof (run_ended sigs this newCall (or_intror Hex)) as Hended.
      destruct (run this newCall sigs) as [[this' call'] evs]. simpl in *.
      by rewrite Hended.
Qed.

End MethodCallProperties.

(** ** The theorems at sample inputs *)

Lemma sampleClient_built :
  Client sampleUrlParse sampleVersion (InObject 0%nat) false
    (storeOf sampleOptionsWithCookies) = Return (sampleClient, sampleStore).
Proof. vm_compute. reflexivity. Qed.

Lemma sampleClientA1_set :
  setCookie sampleClient "a" "1" = Return sampleClientA1.
Proof. reflexivity. Qed.

Example sampleStore_headers :
  map_to_list sampleHeaders ≡ₚ
    [("User-Agent", "NodeJS XML-RPC Client/1.3.1"); ("Content-Type", "text/xml");
     ("Accept", "text/xml"); ("Accept-Charset", "UTF8");
     ("Connection", "Keep-Alive")].
Proof. vm_compute. apply (bool_decide_unpack _). vm_compute. reflexivity. Qed.

Example sampleConfig_url :
  url sampleConfig = Some "http://example.org:8080/RPC2" /\
  host sampleConfig = Some "example.org" /\
  path sampleConfig = Some "/RPC2" /\
  method sampleConfig = Some "POST".
Proof. by vm_compute. Qed.

(** *** C3 *)

(** The claim at a sample input: a client with cookies, one cookie set,
    one call. Before the call the stored headers have no [Cookie]; after
    it they have the cookie of the jar, so the stored configuration is not
    what it was. *)
Lemma methodCall_leaves_cookie_in_stored_headers :
  exists request σ',
    methodCall sampleSerializer sampleClientA1 "ping" [PInt 1]
      sampleStore = Return (request, σ') /\
    storedHeader 0%nat "Cookie" sampleStore = None /\
    storedHeader 0%nat "Cookie" σ' = Some "a=1" /\
    σ' <> sampleStore.
Proof.
  eexists _, _. split; [reflexivity|]. split; [reflexivity|].
  split; [reflexivity|].
  intros Heq. apply (f_equal (storedHeader 0%nat "Cookie")) in Heq.
  vm_compute in Heq. discriminate.
Qed.

(** The amended claim at the same input *)
Lemma methodCall_composes_stored_headers_witness :
  exists request σ',
    methodCall sampleSerializer sampleClientA1 "ping" [PInt 1]
      sampleStore = Return (request, σ') /\
    optionsObjects σ' = optionsObjects sampleStore /\
    storedHeader 0%nat "Cookie" σ' = Some (Cookies.toString {[ "a" := "1" ]}).
Proof.
  destruct (methodCall_composes_stored_headers sampleSerializer
              sampleClientA1 "ping" [PInt 1] sampleStore sampleConfig 0%nat
              sampleHeaders
              "<methodCall><methodName>ping</methodName><params><param><value><int>1</int></value></param></params></methodCall>"
              eq_refl eq_refl eq_refl eq_refl)
    as (request & σ' & Hcall & Hopts & _ & _ & _ & Hcookie).
  exists request, σ'. split; [exact Hcall|]. split; [exact Hopts|].
  by apply Hcookie.
Defined.

(** *** C4 *)

(** The claim at a sample input: the transport ends with status 200,
    the request then emits an error, and the deserializer delivers the
    value 7. The callback is called once, without an error: the error of
    the request does not reach the caller. *)
Lemma methodCall_late_error_not_delivered :
  events sampleClient
    [RequestEnd None 200 sampleIncoming;
     RequestError (JsError "socket hang up"); Deserialized None (Some 7)]
  = [ParseResponse sampleIncoming; Callback None (Some 7)] /\
  callbacks
    (events sampleClient
       [RequestEnd None 200 sampleIncoming;
        RequestError (JsError "socket hang up"); Deserialized None (Some 7)])
  = [(None, Some 7)].
Proof. split; reflexivity. Qed.

(** The amended claim at sample inputs: a transport error while a result
    of the deserializer is waiting, an error of the deserializer, a
    second error of the request, and a call that returns *)
Lemma methodCall_error_propagation_witness :
  events sampleClient
    [Deserialized None (Some 7); RequestError (JsError "ECONNREFUSED")]
  = [Callback (Some (JsError "ECONNREFUSED")) None] /\
  In (Callback (Some (JsError "ECONNREFUSED")) None)
     (events (Value := Z) sampleClient
        [Deserialized (Some (JsError "ECONNREFUSED")) None;
         RequestEnd None 500 sampleIncoming]) /\
  events (Value := Z) sampleClient
    [RequestError (JsError "ETIMEDOUT");
     RequestError (JsError "ECONNREFUSED")]
  = [Callback (Some (JsError "ETIMEDOUT")) None] /\
  exists request σ',
    methodCall sampleSerializer sampleClient "ping" [] sampleStore
      = Return (request, σ').
Proof.
  destruct (methodCall_error_propagation sampleSerializer
              sampleClient "ping" [] sampleStore sampleConfig
              (JsError "ECONNREFUSED") 500 sampleIncoming (@None Z)
              [(None, Some 7)] [] eq_refl)
    as (_ & Hreturn & Herror & _ & _ & _ & Hlate).
  destruct (methodCall_error_propagation sampleSerializer
              sampleClient "ping" [] sampleStore sampleConfig
              (JsError "ECONNREFUSED") 500 sampleIncoming (@None Z)
              [(Some (JsError "ECONNREFUSED"), None)] [] eq_refl)
    as (_ & _ & _ & _ & _ & Hdeser & _).
  split; [exact Herror|]. split.
  - apply Hdeser; [lia|]. by left.
  - split.
    + exact (Hlate [RequestError (JsError "ETIMEDOUT")] [] eq_refl).
    + exact (Hreturn _ 0%nat sampleHeaders eq_refl eq_refl eq_refl).
Defined.

(** *** The callback on the path without error *)

(** Status 200 and one result of the deserializer: one call of the
    callback, in both orders *)
Lemma methodCall_clean_callback_once_witness :
  200 <> 404 /\
  callbacks (events sampleClient [RequestEnd None 200 sampleIncoming;
                                  Deserialized None (Some 7)])
    = [(None, Some 7)] /\
  callbacks (events sampleClient [Deserialized None (Some 7);
                                  RequestEnd None 200 sampleIncoming])
    = [(None, Some 7)].
Proof.
  split; [lia|].
  apply (methodCall_clean_callback_once sampleClient 200 sampleIncoming
           None (Some 7)).
  lia.
Defined.

(** *** C5 *)

(** A response with status 200 that sets the cookie [a] to 2, the
    deserializer first: [parseResponse], then the callback; and the jar of
    a client that held a=1 holds a=2 as soon as the transport has ended. *)
Lemma methodCall_parseResponse_before_callback_witness :
  200 <> 404 /\
  events sampleClient [Deserialized None (Some 7);
                       RequestEnd None 200 sampleIncoming]
  = [ParseResponse sampleIncoming; Callback None (Some 7)] /\
  getCookie (run sampleClientA1 newCall
               [RequestEnd (Value := Z) None 200 sampleIncoming]).1.1 "a"
  = Return (Some "2").
Proof.
  destruct (methodCall_parseResponse_before_callback sampleClient 200
              sampleIncoming None (Some 7) ltac:(lia))
    as (_ & _ & _ & _ & Horder & _).
  destruct (methodCall_parseResponse_before_callback (Value := Z)
              sampleClientA1 200 sampleIncoming None None ltac:(lia))
    as (_ & Hjar & _).
  split; [lia|]. split; [exact Horder|]. by rewrite Hjar.
Defined.

(** *** C6 *)

(** The claim at a sample input: the configured encoding is 'utf16le' and
    gzip is off. The body is the XML of 71 characters; Content-Length is
    71, the length of its UTF-8 encoding, and not 142, its length in the
    configured encoding. *)
Lemma methodCall_content_length_ignores_encoding :
  exists c σ request σ' xml,
    Client sampleUrlParse sampleVersion (InObject 0%nat) false
      (storeOf (set_encoding (Some "utf16le") sampleOptions))
      = Return (c, σ) /\
    sampleSerializer "ping" [] (Some "utf16le") = inr xml /\
    methodCall sampleSerializer c "ping" [] σ
      = Return (request, σ') /\
    req_data request = Some (BodyString xml) /\
    req_header request !! "Content-Length" = Some (HNum 71) /\
    byteLength xml "utf16le" = 142%nat /\
    req_header request !! "Content-Length"
      <> Some (HNum (byteLength xml "utf16le")).
Proof.
  eexists _, _, _, _, _.
  split; [vm_compute; reflexivity|].
  split; [vm_compute; reflexivity|].
  split; [vm_compute; reflexivity|].
  split; [reflexivity|]. split; [reflexivity|]. split; [reflexivity|].
  vm_compute. discriminate.
Qed.

(** The amended claim at a sample input with gzip off *)
Lemma methodCall_content_length_witness :
  gzip sampleConfig <> JStr "both" /\
  exists request σ',
    methodCall sampleSerializer sampleClient "ping" [] sampleStore
      = Return (request, σ') /\
    req_header request !! "Content-Length" = Some (HNum 71) /\
    req_data request
      = Some (BodyString
                "<methodCall><methodName>ping</methodName><params></params></methodCall>").
Proof.
  assert (gzip sampleConfig <> JStr "both") as Hgzip
    by (vm_compute; discriminate).
  split; [exact Hgzip|].
  exact (methodCall_content_length sampleSerializer
           sampleClient "ping" [] sampleStore sampleConfig 0%nat
           sampleHeaders
           "<methodCall><methodName>ping</methodName><params></params></methodCall>"
           eq_refl eq_refl eq_refl eq_refl Hgzip).
Defined.

(** *** C7 *)

(** A client built without [cookies] and one built with them *)
Lemma cookie_accessors_guard_witness :
  wellFormed (InObject 0%nat) (storeOf sampleOptions) = true /\
  (exists c σ',
     Client sampleUrlParse sampleVersion (InObject 0%nat) false
       (storeOf sampleOptions) = Return (c, σ') /\
     getCookie c "a" = Throw cookiesOff /\
     setCookie c "a" "1" = Throw cookiesOff) /\
  (exists c σ',
     Client sampleUrlParse sampleVersion (InObject 0%nat) false
       (storeOf sampleOptionsWithCookies) = Return (c, σ') /\
     getCookie c "a" = Return None).
Proof.
  split; [reflexivity|]. split.
  - destruct (cookie_accessors_guard sampleUrlParse sampleVersion
                (InObject 0%nat) false (storeOf sampleOptions) Z [] newCall
                eq_refl)
      as (c & σ' & Hc & Hget & Hset).
    exists c, σ'. split; [exact Hc|]. split; [apply Hget|apply Hset].
  - destruct (cookie_accessors_guard sampleUrlParse sampleVersion
                (InObject 0%nat) false (storeOf sampleOptionsWithCookies)
                Z [] newCall eq_refl)
      as (c & σ' & Hc & Hget & _).
    exists c, σ'. split; [exact Hc|apply Hget].
Defined.

(** *** C8 *)

(** [basic_auth: { user: 'user', pass: 'pass' }] and no headers *)
Lemma Client_authorization_header_witness :
  let o := set_basic_auth (Some {| user := Some "user"; pass := Some "pass" |})
             sampleOptions in
  wellFormed (InObject 0%nat) (storeOf o) = true /\
  exists c σ' hs',
    Client sampleUrlParse sampleVersion (InObject 0%nat) false (storeOf o)
      = Return (c, σ') /\
    headersOf (this_options c) σ' = Some hs' /\
    hs' !! "Authorization" = Some "Basic dXNlcjpwYXNz".
Proof.
  intros o. split; [reflexivity|].
  destruct (Client_authorization_header sampleUrlParse sampleVersion
              (InObject 0%nat) false (storeOf o) eq_refl)
    as (c & σ' & hs' & Hc & Hhs & _ & Hbasic & _).
  exists c, σ', hs'. split; [exact Hc|]. split; [exact Hhs|].
  by apply (Hbasic "user" "pass").
Defined.

(** *** C9 *)

(** [path: 'RPC2'] becomes [/RPC2] *)
Lemma Client_path_begins_with_slash_witness :
  wellFormed (InObject 0%nat) (storeOf sampleOptions) = true /\
  exists c σ' o',
    Client sampleUrlParse sampleVersion (InObject 0%nat) false
      (storeOf sampleOptions) = Return (c, σ') /\
    optionsObjects σ' !! this_options c = Some o' /\
    path o' = Some "/RPC2".
Proof.
  split; [reflexivity|].
  destruct (Client_path_begins_with_slash sampleUrlParse sampleVersion
              (InObject 0%nat) false (storeOf sampleOptions) eq_refl)
    as (c & σ' & o' & rest & Hc & Ho' & _ & _ & Hprepend & _).
  exists c, σ', o'. split; [exact Hc|]. split; [exact Ho'|].
  by apply (Hprepend "RPC2").
Defined.

(** *** C10 *)

(** The object at location 0 is the configuration of the client, with
    its fields filled in and the default headers in a new headers
    object; and the URL of a secure client for the port 1e21 *)
Lemma Client_mutates_callers_options_witness :
  wellFormed (InObject 0%nat) (storeOf sampleOptions) = true /\
  (exists c σ' o',
     Client sampleUrlParse sampleVersion (InObject 0%nat) true
       (storeOf (set_port (JNum 1000000000000000000000) sampleOptions))
       = Return (c, σ') /\
     optionsObjects σ' !! 0%nat = Some o' /\
     port o' = JNum 1000000000000000000000 /\
     url o' = Some "https://example.org:1e+21/RPC2") /\
  exists c σ' o' lh hs',
    Client sampleUrlParse sampleVersion (InObject 0%nat) false
      (storeOf sampleOptions) = Return (c, σ') /\
    this_options c = 0%nat /\
    optionsObjects σ' !! 0%nat = Some o' /\
    host o' = Some "example.org" /\
    port o' = JNum 8080 /\
    path o' = Some "/RPC2" /\
    url o' = Some "http://example.org:8080/RPC2" /\
    method o' = Some "POST" /\
    headers sampleOptions = None /\
    headers o' = Some lh /\
    headersObjects σ' !! lh = Some hs' /\
    hs' !! "User-Agent" = Some "NodeJS XML-RPC Client/1.3.1" /\
    hs' !! "Content-Type" = Some "text/xml" /\
    hs' !! "Accept" = Some "text/xml" /\
    hs' !! "Accept-Charset" = Some "UTF8" /\
    hs' !! "Connection" = Some "Keep-Alive" /\
    hs' !! "Accept-Encoding" = None /\
    hs' !! "Authorization" = None.
Proof.
  split; [reflexivity|].
  destruct (Client_mutates_callers_options sampleUrlParse sampleVersion
              0%nat false (storeOf sampleOptions) eq_refl)
    as (c & σ' & o & o' & lh & hs' & Hc & Hl & Ho & Hσ' & Hfields & Hlh
        & _ & _ & Hhs' & Hheaders).
  assert (o = sampleOptions) as -> by (vm_compute in Ho; by injection Ho).
  destruct Hfields as (Hhost & Hport & _ & Hpath & _ & _ & Hurl & Hmethod).
  destruct Hheaders as (_ & Hua & Hct & Hac & Hcs & Hco & Hae & _ & Hau).
  split.
  { destruct (Client_mutates_callers_options sampleUrlParse sampleVersion
                0%nat true
                (storeOf (set_port (JNum 1000000000000000000000)
                            sampleOptions)) eq_refl)
      as (c2 & σ2 & o2 & o2' & _ & _ & Hc2 & _ & Ho2 & Hσ2 & Hfields2 & _).
    assert (o2 = set_port (JNum 1000000000000000000000) sampleOptions)
      as -> by (vm_compute in Ho2; by injection Ho2).
    destruct Hfields2 as (Hhost2 & Hport2 & _ & Hpath2 & _ & _ & Hurl2 & _).
    exists c2, σ2, o2'. split; [exact Hc2|].
    split; [by rewrite Hσ2, lookup_insert_eq|]. split; [exact Hport2|].
    rewrite Hurl2, Hhost2, Hport2, Hpath2. vm_compute. reflexivity. }
  exists c, σ', o', lh, hs'. split; [exact Hc|]. split; [exact Hl|].
  split; [by rewrite Hσ', lookup_insert_eq|].
  split; [exact Hhost|]. split; [exact Hport|].
  split; [exact Hpath|].
  split; [rewrite Hurl, Hhost, Hport, Hpath; vm_compute; reflexivity|].
  split; [exact Hmethod|]. split; [reflexivity|]. split; [exact Hlh|].
  split; [by rewrite Hhs', lookup_insert_eq|].
  split; [by apply Hua|]. split; [by apply Hct|]. split; [by apply Hac|].
  split; [by apply Hcs|]. split; [by apply Hco|].
  split; [by apply Hae|by apply Hau].
Defined.

(** * Further properties *)

(** ** The constructor *)

Section ConstructorFurther.

Variable url_parse : string -> Url.t.
Variable package_version : string.

Lemma addDefaults_present ds : forall (hs : gmap string string) k,
  k ∈ ds.*1 -> is_Some (addDefaults ds hs !! k).
Proof.
  induction ds as [|[k' v'] ds IH]; intros hs k Hin.
  - by apply elem_of_nil in Hin.
  - simpl in *. apply elem_of_cons in Hin as [->|Hin]; [|by apply IH].
    destruct (hs !! k') as [v|] eqn:Hk'.
    + exists v. by apply addDefaults_supplied.
    + exists v'. apply addDefaults_supplied, lookup_insert_eq.
Qed.

Lemma addDefaults_all_present ds : forall (hs : gmap string string),
  (forall k, k ∈ ds.*1 -> is_Some (hs !! k)) -> addDefaults ds hs = hs.
Proof.
  induction ds as [|[k' v'] ds IH]; intros hs Hall; [done|].
  simpl. destruct (Hall k') as [v Hv]; [simpl; apply elem_of_cons; by left|].
  rewrite Hv. apply IH. intros k Hk. apply Hall. simpl.
  apply elem_of_cons. by right.
Qed.

Lemma defaultHeaders_same_keys o o' :
  gzip o' = gzip o -> userAgent o' = userAgent o ->
  defaultHeaders package_version o' = defaultHeaders package_version o.
Proof. unfold defaultHeaders. by intros -> ->. Qed.

(** The options after the defaults depend on the resolved host, port
    and path and on the other fields only. *)
Lemma normalizeOptions_ext (sec : bool) o o' :
  host (resolveUrl url_parse o) = host (resolveUrl url_parse o') ->
  port (resolveUrl url_parse o) = port (resolveUrl url_parse o') ->
  path (resolveUrl url_parse o) = path (resolveUrl url_parse o') ->
  method (resolveUrl url_parse o) = method (resolveUrl url_parse o') ->
  cookies o = cookies o' -> keepAlive o = keepAlive o' ->
  gzip o = gzip o' -> userAgent o = userAgent o' ->
  headers o = headers o' -> basic_auth o = basic_auth o' ->
  encoding o = encoding o' -> responseEncoding o = responseEncoding o' ->
  normalizeOptions url_parse sec o = normalizeOptions url_parse sec o'.
Proof.
  intros Hh Hp Hpa Hm Hc Hk Hg Hu Hhd Hb He Hr.
  rewrite !normalizeOptions_eq. cbv zeta.
  by rewrite Hh, Hp, Hpa, Hm, Hc, Hk, Hg, Hu, Hhd, Hb, He, Hr.
Qed.

(** The fields of the configuration do not depend on where its headers
    object lives. *)
Lemma config_fields m lh lh' (o : Options) :
  host (set_method m (set_headers lh o))
    = host (set_method m (set_headers lh' o)) /\
  port (set_method m (set_headers lh o))
    = port (set_method m (set_headers lh' o)) /\
  path (set_method m (set_headers lh o))
    = path (set_method m (set_headers lh' o)) /\
  url (set_method m (set_headers lh o))
    = url (set_method m (set_headers lh' o)).
Proof. by destruct o. Qed.

Lemma resolveUrl_uri_string uri :
  resolveUrl url_parse (optionsOfUri url_parse uri)
    = optionsOfUri url_parse uri.
Proof. reflexivity. Qed.

Lemma resolveUrl_uri_object uri :
  resolveUrl url_parse (set_url (Some uri) emptyOptions)
    = set_url (Some uri) (optionsOfUri url_parse uri).
Proof. reflexivity. Qed.

Opaque normalizeOptions resolveUrl defaultHeaders addDefaults
  addAuthorization newLoc.

(** The configuration, the headers and the agent of the client that the
    constructor returns *)
Lemma Client_config options (sec : bool) σ :
  wellFormed options σ = true ->
  exists c σ' lh,
    Client url_parse package_version options sec σ = Return (c, σ') /\
    optionsObjects σ' !! this_options c
      = Some (set_method (Some "POST")
                (set_headers (Some lh)
                   (normalizeOptions url_parse sec
                      (inputOptions url_parse options σ)))) /\
    headersOf (this_options c) σ'
      = Some (addDefaults
                (defaultHeaders package_version
                   (normalizeOptions url_parse sec
                      (inputOptions url_parse options σ)))
                (addAuthorization
                   (normalizeOptions url_parse sec
                      (inputOptions url_parse options σ))
                   (inputHeaders url_parse options σ))) /\
    this_agent c
      = agentOptions (normalizeOptions url_parse sec
                        (inputOptions url_parse options σ)).
Proof.
  intros Hwf. rewrite (Client_eq _ _ _ _ _ Hwf).
  eexists _, _, _. split; [done|]. split.
  { cbn [this_options optionsObjects]. by rewrite lookup_insert_eq. }
  split; [|done].
  unfold headersOf. cbn [this_options optionsObjects headersObjects].
  rewrite lookup_insert_eq. simpl. by rewrite lookup_insert_eq.
Qed.

(** X2. The constructor writes to the options object of the client and to
    its headers object, and to nothing else in the store: every other
    options object and every other headers object is as before. For a URI
    string the options object of the client is a new one, so no object
    the store held is written at all. *)
Theorem Client_frame options (sec : bool) σ :
  wellFormed options σ = true ->
  exists c σ' o' lh,
    Client url_parse package_version options sec σ = Return (c, σ') /\
    optionsObjects σ' !! this_options c = Some o' /\
    headers o' = Some lh /\
    (forall l, l <> this_options c ->
       optionsObjects σ' !! l = optionsObjects σ !! l) /\
    (forall l, l <> lh -> headersObjects σ' !! l = headersObjects σ !! l) /\
    (forall uri, options = InString uri ->
       optionsObjects σ !! this_options c = None /\
       headersObjects σ !! lh = None).
Proof.
  intros Hwf. rewrite (Client_eq _ _ _ _ _ Hwf).
  eexists _, _, _, _. split; [done|]. cbn [this_options optionsObjects
    headersObjects fst snd]. rewrite lookup_insert_eq.
  split; [done|]. split; [done|]. split; [|split].
  - intros l Hl. by rewrite lookup_insert_ne.
  - intros l Hl. by rewrite lookup_insert_ne.
  - intros uri ->. split; apply newLoc_fresh.
Qed.

(** X3. The compression headers follow the gzip mode: unless the caller
    supplied the header, [Accept-Encoding: gzip] is in the configuration
    exactly when the gzip option is truthy, and [Content-Encoding: gzip]
    exactly when it is the string 'both'. *)
Theorem Client_gzip_headers options (sec : bool) σ :
  wellFormed options σ = true ->
  exists c σ' hs',
    Client url_parse package_version options sec σ = Return (c, σ') /\
    headersOf (this_options c) σ' = Some hs' /\
    let g := gzip (inputOptions url_parse options σ) in
    let hs0 := inputHeaders url_parse options σ in
    (hs0 !! "Accept-Encoding" = None ->
     hs' !! "Accept-Encoding" = if truthy g then Some "gzip" else None) /\
    (hs0 !! "Content-Encoding" = None ->
     hs' !! "Content-Encoding"
       = if decide (g = JStr "both") then Some "gzip" else None).
Proof.
  intros Hwf. rewrite (Client_eq _ _ _ _ _ Hwf).
  eexists _, _, _. split; [done|]. split.
  { unfold headersOf. simpl. rewrite lookup_insert_eq. simpl.
    by rewrite lookup_insert_eq. }
  cbv zeta.
  set (o0 := inputOptions url_parse options σ).
  set (hs0 := inputHeaders url_parse options σ).
  set (o1 := normalizeOptions url_parse sec o0).
  assert (gzip o1 = if truthy (gzip o0) then gzip o0 else JBool false) as Hg.
  { unfold o1. by rewrite normalizeOptions_eq. }
  assert (truthy (gzip o1) = truthy (gzip o0)) as Ht1.
  { rewrite Hg. apply truthy_defaultGzip. }
  assert (gzip o1 = JStr "both" <-> gzip o0 = JStr "both") as Hb1.
  { rewrite Hg. apply both_defaultGzip. }
  clearbody o1. clear Hg. rewrite <- Ht1.
  pose proof (defaultHeaders_NoDup package_version o1) as Hnd.
  Transparent defaultHeaders.
  unfold defaultHeaders in *.
  split.
  - intros Hnone.
    assert (addAuthorization o1 hs0 !! "Accept-Encoding" = None) as Hno.
    { by rewrite addAuthorization_other. }
    destruct (truthy (gzip o1)).
    + apply addDefaults_default; [done| |done].
      apply elem_of_app. right. apply elem_of_app. left.
      by apply list_elem_of_singleton.
    + rewrite addDefaults_other; [done|].
      destruct (decide (gzip o1 = JStr "both")); simpl;
        by apply (bool_decide_unpack _).
  - intros Hnone.
    assert (addAuthorization o1 hs0 !! "Content-Encoding" = None) as Hno.
    { by rewrite addAuthorization_other. }
    destruct (decide (gzip o1 = JStr "both")) as [Hb|Hb];
      destruct (decide (gzip o0 = JStr "both")) as [Hb0|Hb0];
      try tauto.
    + apply addDefaults_default; [done| |done].
      apply elem_of_app. right. apply elem_of_app. right.
      by apply list_elem_of_singleton.
    + rewrite addDefaults_other; [done|].
      destruct (truthy (gzip o1)); simpl; by apply (bool_decide_unpack _).
  Opaque defaultHeaders.
Qed.

(** X4. The pooled agent follows the keepAlive option: with a positive
    keepAlive its keep-alive timeout is the keepAlive, and its timeout is
    the keepAlive plus 10000 as long as that sum is at most 2^53, where
    the sum of two doubles is exact; with none, zero or a negative one
    the timeout is 3000 and no keep-alive timeout is set. The socket
    limits are 100 and 10 either way. *)
Theorem Client_agent_timeouts options (sec : bool) σ :
  wellFormed options σ = true ->
  exists c σ',
    Client url_parse package_version options sec σ = Return (c, σ') /\
    let k := default 0 (keepAlive (inputOptions url_parse options σ)) in
    maxSockets (this_agent c) = 100 /\
    maxFreeSockets (this_agent c) = 10 /\
    (0 < k -> keepAliveTimeout (this_agent c) = Some k) /\
    (0 < k -> k + 10000 <= 9007199254740992 ->
     timeout (this_agent c) = k + 10000) /\
    (k <= 0 -> timeout (this_agent c) = 3000 /\
               keepAliveTimeout (this_agent c) = None).
Proof.
  intros Hwf. rewrite (Client_eq _ _ _ _ _ Hwf).
  eexists _, _. split; [done|]. cbn [this_agent]. cbv zeta.
  unfold agentOptions. rewrite normalizeOptions_eq. cbn [keepAlive].
  set (k := default 0 (keepAlive (inputOptions url_parse options σ))).
  destruct (0 <? k) eqn:Hk; cbn [maxSockets maxFreeSockets timeout
                                 keepAliveTimeout].
  - apply Z.ltb_lt in Hk. repeat split; try lia.
    intros _ Hsum. rewrite (roundDouble_exact k) by lia.
    apply roundDouble_exact. lia.
  - apply Z.ltb_ge in Hk. repeat split; lia.
Qed.

(** X5. A URI string and the options object whose only field is that
    string as [url] give the same configuration: the same host, port,
    path and canonical URL, the same headers, and the same agent. *)
Theorem Client_string_object_agree uri (sec : bool) σ (l : nat) :
  optionsObjects σ !! l = Some (set_url (Some uri) emptyOptions) ->
  exists c1 σ1 o1 h1 c2 σ2 o2 h2,
    Client url_parse package_version (InString uri) sec σ = Return (c1, σ1) /\
    Client url_parse package_version (InObject l) sec σ = Return (c2, σ2) /\
    optionsObjects σ1 !! this_options c1 = Some o1 /\
    optionsObjects σ2 !! this_options c2 = Some o2 /\
    headersOf (this_options c1) σ1 = Some h1 /\
    headersOf (this_options c2) σ2 = Some h2 /\
    host o1 = host o2 /\ port o1 = port o2 /\ path o1 = path o2 /\
    url o1 = url o2 /\ h1 = h2 /\ this_agent c1 = this_agent c2.
Proof.
  intros Hl.
  assert (wellFormed (InObject l) σ = true) as Hwf.
  { simpl. by rewrite Hl. }
  destruct (Client_config (InString uri) sec σ eq_refl)
    as (c1 & σ1 & lh1 & HC1 & Ho1 & Hh1 & Ha1).
  destruct (Client_config (InObject l) sec σ Hwf)
    as (c2 & σ2 & lh2 & HC2 & Ho2 & Hh2 & Ha2).
  assert (inputOptions url_parse (InObject l) σ
          = set_url (Some uri) emptyOptions) as Hio.
  { simpl. by rewrite Hl. }
  assert (inputHeaders url_parse (InObject l) σ = ∅) as Hih.
  { unfold inputHeaders. by rewrite Hio. }
  rewrite Hio in Ho2, Hh2, Ha2. rewrite Hih in Hh2.
  change (inputOptions url_parse (InString uri) σ)
    with (optionsOfUri url_parse uri) in Ho1, Hh1, Ha1.
  change (inputHeaders url_parse (InString uri) σ)
    with (∅ : gmap string string) in Hh1.
  assert (normalizeOptions url_parse sec (optionsOfUri url_parse uri)
          = normalizeOptions url_parse sec (set_url (Some uri) emptyOptions))
    as Hsame.
  { apply normalizeOptions_ext;
      rewrite ?resolveUrl_uri_string, ?resolveUrl_uri_object;
      vm_compute; reflexivity. }
  rewrite Hsame in Ho1, Hh1, Ha1.
  eexists c1, σ1, _, _, c2, σ2, _, _.
  split; [exact HC1|]. split; [exact HC2|].
  split; [exact Ho1|]. split; [exact Ho2|].
  split; [exact Hh1|]. split; [exact Hh2|].
  rewrite Ha1, Ha2.
  destruct (config_fields (Some "POST") (Some lh1) (Some lh2)
              (normalizeOptions url_parse sec
                 (set_url (Some uri) emptyOptions)))
    as (Hhost & Hport & Hpath & Hurl).
  split; [exact Hhost|]. split; [exact Hport|]. split; [exact Hpath|].
  split; [exact Hurl|]. split; reflexivity.
Qed.

(** X6. A [url] field overrides the host, port and path fields entirely:
    two options objects with the same [url] that differ only in host, port
    and path leave the same configuration, and its host is the hostname of
    the [url] (localhost when it has none) and its port the port of the
    [url], or the default when the [url] names none, whatever port the
    caller gave. *)
Theorem Client_url_overrides_host_port_path (l : nat) (sec : bool) σ o u
    h p pa :
  wellFormed (InObject l) σ = true ->
  optionsObjects σ !! l = Some o ->
  url o = Some u ->
  exists c1 σ1 c2 σ2 o',
    Client url_parse package_version (InObject l) sec σ = Return (c1, σ1) /\
    Client url_parse package_version (InObject l) sec
      (storeOptions l (set_path pa (set_port p (set_host h o))) σ)
      = Return (c2, σ2) /\
    optionsObjects σ1 !! l = Some o' /\
    optionsObjects σ2 !! l = Some o' /\
    host o' = Some (orStr (Url.hostname (url_parse u)) "localhost") /\
    port o' = (if truthy (portOfUrl (url_parse u))
               then portOfUrl (url_parse u)
               else JNum (if sec then 443 else 80)).
Proof.
  intros Hwf Ho Hu.
  set (o2 := set_path pa (set_port p (set_host h o))).
  assert (wellFormed (InObject l) (storeOptions l o2 σ) = true) as Hwf2.
  { simpl in *. rewrite lookup_insert_eq. by rewrite Ho in Hwf. }
  rewrite (Client_eq _ _ _ sec σ Hwf).
  rewrite (Client_eq _ _ _ sec _ Hwf2).
  assert (inputOptions url_parse (InObject l) σ = o) as Hio.
  { simpl. by rewrite Ho. }
  assert (inputOptions url_parse (InObject l) (storeOptions l o2 σ) = o2)
    as Hio2.
  { simpl. by rewrite lookup_insert_eq. }
  rewrite Hio, Hio2.
  Transparent resolveUrl.
  assert (resolveUrl url_parse o2 = resolveUrl url_parse o) as Hr.
  { unfold resolveUrl, o2. simpl. rewrite Hu. by destruct o. }
  assert (resolveUrl url_parse o
          = set_port (portOfUrl (url_parse u))
              (set_path (Url.pathname (url_parse u))
                 (set_host (Url.hostname (url_parse u)) o))) as Hr0.
  { unfold resolveUrl. by rewrite Hu. }
  Opaque resolveUrl.
  assert (normalizeOptions url_parse sec o2 = normalizeOptions url_parse sec o)
    as Hn.
  { rewrite !normalizeOptions_eq. by rewrite Hr. }
  rewrite Hn. replace (headers o2) with (headers o) by done.
  eexists _, _, _, _, _. split; [done|]. split; [done|].
  cbn [optionsObjects storeOptions]. rewrite !lookup_insert_eq.
  split; [done|]. split; [done|].
  rewrite normalizeOptions_eq, Hr0. done.
Qed.

(** X7. A second client built from the options object of a first one
    leaves every headers object as it is: the defaults and the
    [Authorization] header are added once and never again, also when the
    second client is built with another [isSecure]. *)
Theorem Client_again_keeps_headers (l : nat) (sec sec' : bool) σ c1 σ1 :
  wellFormed (InObject l) σ = true ->
  Client url_parse package_version (InObject l) sec σ = Return (c1, σ1) ->
  exists c2 σ2,
    Client url_parse package_version (InObject l) sec' σ1 = Return (c2, σ2) /\
    headersObjects σ2 = headersObjects σ1 /\
    headersOf (this_options c2) σ2 = headersOf (this_options c1) σ1.
Proof.
  intros Hwf. rewrite (Client_eq _ _ _ sec σ Hwf). intros [= <- <-].
  set (o0 := inputOptions url_parse (InObject l) σ).
  set (hs0 := inputHeaders url_parse (InObject l) σ).
  set (o1 := normalizeOptions url_parse sec o0).
  set (lh := match headers o0 with
             | Some lh => lh
             | None => newLoc (headersObjects σ)
             end).
  set (hs1 := addDefaults (defaultHeaders package_version o1)
                (addAuthorization o1 hs0)).
  set (o1' := set_method (Some "POST") (set_headers (Some lh) o1)).
  set (σ1 := {| optionsObjects := <[l:=o1']> (optionsObjects σ);
                headersObjects := <[lh:=hs1]> (headersObjects σ) |}).
  assert (wellFormed (InObject l) σ1 = true) as Hwf1.
  { simpl. rewrite lookup_insert_eq. simpl. rewrite lookup_insert_eq.
    by apply bool_decide_eq_true. }
  rewrite (Client_eq _ _ _ sec' σ1 Hwf1).
  assert (inputOptions url_parse (InObject l) σ1 = o1') as Hio.
  { simpl. by rewrite lookup_insert_eq. }
  assert (inputHeaders url_parse (InObject l) σ1 = hs1) as Hih.
  { unfold inputHeaders. rewrite Hio. simpl. by rewrite lookup_insert_eq. }
  rewrite Hio, Hih.
  set (o2 := normalizeOptions url_parse sec' o1').
  assert (gzip o1 = if truthy (gzip o0) then gzip o0 else JBool false) as Hg1.
  { apply normalizeOptions_gzip. }
  assert (gzip o2 = gzip o1) as Hg2.
  { unfold o2. rewrite normalizeOptions_gzip. unfold o1'.
    cbn [gzip set_method set_headers]. rewrite Hg1.
    by destruct (truthy (gzip o0)) eqn:Ht; [rewrite Ht|]. }
  assert (userAgent o2 = userAgent o1) as Hu2.
  { unfold o2. by rewrite normalizeOptions_userAgent. }
  assert (basic_auth o2 = basic_auth o1) as Hb2.
  { unfold o2. by rewrite normalizeOptions_basic_auth. }
  assert (addAuthorization o2 hs1 = hs1) as Hauth.
  { assert (hs1 !! "Authorization" = authorizationOf o1 hs0) as Hl1.
    { unfold hs1. rewrite addDefaults_other
        by apply defaultHeaders_no_Authorization.
      apply addAuthorization_lookup. }
    Transparent addAuthorization.
    unfold addAuthorization. rewrite Hb2.
    destruct (hs1 !! "Authorization") eqn:Hh1; [done|].
    unfold authorizationOf in Hl1.
    destruct (hs0 !! "Authorization"); [done|].
    by destruct (basic_auth o1) as [[[u|] [p|]]|].
    Opaque addAuthorization. }
  assert (addDefaults (defaultHeaders package_version o2) hs1 = hs1) as Hdef.
  { rewrite (defaultHeaders_same_keys _ _ Hg2 Hu2).
    apply addDefaults_all_present. intros k Hk.
    by apply addDefaults_present. }
  rewrite Hauth, Hdef.
  replace (headers o1') with (Some lh) by done.
  eexists _, _. split; [done|]. cbn [headersObjects σ1]. split.
  - unfold σ1. cbn [headersObjects]. by rewrite insert_insert_eq.
  - unfold headersOf. cbn [this_options optionsObjects headersObjects].
    rewrite !lookup_insert_eq. simpl. unfold σ1. cbn [headersObjects].
    by rewrite !lookup_insert_eq.
Qed.

(** X8. The processor list and the cookie jar of a client go together at
    all times: the client the constructor returns has the jar as its one
    processor when it has a jar and no processor when it has none, and so
    has the client after any signals of its calls and after a
    [setCookie]. *)
Theorem Client_jar_registered options (sec : bool) σ (Value : Type)
    (sigs : list (Signal (Value := Value))) call :
  wellFormed options σ = true ->
  exists c σ',
    Client url_parse package_version options sec σ = Return (c, σ') /\
    jarRegistered c /\
    jarRegistered (run c call sigs).1.1 /\
    (forall name value c',
       setCookie (run c call sigs).1.1 name value = Return c' ->
       jarRegistered c').
Proof.
  intros Hwf. rewrite (Client_eq _ _ _ _ _ Hwf).
  eexists _, _. split; [done|].
  match goal with
  | |- context [run ?c call sigs] =>
      set (c0 := c);
      pose proof (run_later sigs c0 call) as (_ & _ & Hp & _ & Hn & Hj);
      revert Hp Hn Hj; generalize (run c0 call sigs).1.1 as later
  end.
  intros later Hp Hn Hj.
  assert (jarRegistered c0) as H0.
  { unfold jarRegistered, c0. cbn [this_cookies this_processors].
    destruct (truthy (cookies (inputOptions url_parse options σ)));
      [right|left]; done. }
  assert (jarRegistered later) as Hl.
  { destruct H0 as [[Hc Hps]|[Hc Hps]]; [left|right];
      (split; [auto|congruence]). }
  split; [done|]. split; [done|].
  intros name value c'. unfold setCookie.
  destruct (this_cookies later) as [jar|] eqn:Hjar; [|done].
  intros [= <-]. destruct Hl as [[Hc _]|[_ Hps]]; [congruence|].
  right. by split.
Qed.

(** X13. The [User-Agent] header of the configuration is the one the
    caller supplied among the headers when there is one; otherwise the
    [userAgent] option when it is a non-empty string; otherwise
    'NodeJS XML-RPC Client/' followed by the version of the package. *)
Theorem Client_user_agent options (sec : bool) σ :
  wellFormed options σ = true ->
  exists c σ' hs',
    Client url_parse package_version options sec σ = Return (c, σ') /\
    headersOf (this_options c) σ' = Some hs' /\
    hs' !! "User-Agent"
      = Some (match inputHeaders url_parse options σ !! "User-Agent" with
              | Some v => v
              | None =>
                  match userAgent (inputOptions url_parse options σ) with
                  | Some ua =>
                      if String.eqb ua ""
                      then "NodeJS XML-RPC Client/" +:+ package_version
                      else ua
                  | None => "NodeJS XML-RPC Client/" +:+ package_version
                  end
              end).
Proof.
  intros Hwf.
  destruct (Client_config options sec σ Hwf)
    as (c & σ' & lh & HC & _ & Hh & _).
  eexists c, σ', _. split; [exact HC|]. split; [exact Hh|].
  set (o1 := normalizeOptions url_parse sec (inputOptions url_parse options σ)).
  set (hs0 := inputHeaders url_parse options σ).
  assert (addAuthorization o1 hs0 !! "User-Agent" = hs0 !! "User-Agent")
    as Hother by by apply addAuthorization_other.
  destruct (hs0 !! "User-Agent") as [v|] eqn:Hv.
  - by apply addDefaults_supplied.
  - replace (userAgent (inputOptions url_parse options σ))
      with (userAgent o1) by apply normalizeOptions_userAgent.
    apply addDefaults_default; [apply defaultHeaders_NoDup| |done].
    Transparent defaultHeaders.
    unfold defaultHeaders. apply elem_of_app. left.
    apply elem_of_cons. left. unfold orStr.
    by destruct (userAgent o1).
    Opaque defaultHeaders.
Qed.

(** X14. The constructor adds nothing to the headers but the default
    headers and [Authorization], and takes nothing away: every other
    header of the configuration is as the caller supplied it, and a header
    the caller did not supply is not there. *)
Theorem Client_headers_nothing_else options (sec : bool) σ :
  wellFormed options σ = true ->
  exists c σ' o' hs',
    Client url_parse package_version options sec σ = Return (c, σ') /\
    optionsObjects σ' !! this_options c = Some o' /\
    headersOf (this_options c) σ' = Some hs' /\
    forall k, k <> "Authorization" ->
              k ∉ (defaultHeaders package_version o').*1 ->
              hs' !! k = inputHeaders url_parse options σ !! k.
Proof.
  intros Hwf.
  destruct (Client_config options sec σ Hwf)
    as (c & σ' & lh & HC & Ho & Hh & _).
  eexists c, σ', _, _. split; [exact HC|]. split; [exact Ho|].
  split; [exact Hh|]. intros k Hk Hnot.
  rewrite addDefaults_other.
  - by apply addAuthorization_other.
  - erewrite <- defaultHeaders_same_keys; [exact Hnot|done|done].
Qed.

Transparent normalizeOptions resolveUrl defaultHeaders addDefaults
  addAuthorization newLoc.

End ConstructorFurther.

(** ** The signals of a call *)

Section SignalsFurther.

Context {Value : Type}.
Implicit Types (this : ClientObj) (call : PendingCall (Value := Value)).
Implicit Types (sigs : list (Signal (Value := Value))).
Implicit Types (ds : list (option jsError * option Value)).

(** X9. Once the transport of a call has ended or failed, an 'error' of
    the request does nothing: the callback is not called for it and the
    call and the client stay as they are. *)
Theorem methodCall_late_error_ignored this sigs (e : jsError) :
  existsb (fun s => isEnd s || isRequestError s) sigs = true ->
  run this newCall (sigs ++ [RequestError e]) = run this newCall sigs.
Proof.
  intros Hex. rewrite run_app. cbv zeta.
  pose proof (run_ended sigs this newCall (or_intror Hex)) as Hended.
  destruct (run this newCall sigs) as [[this' call'] evs]. simpl in *.
  rewrite Hended. simpl. by rewrite app_nil_r.
Qed.

(** X10. When the transport ends once, without error and with a status
    other than 404, every result the deserializer delivers reaches the
    callback exactly once and in the order of delivery: the ones delivered
    before the end are held back and called, in order, right after
    [parseResponse]; the ones delivered after the end are called as they
    come. *)
Theorem methodCall_delivers_in_order this ds1 ds2 statusCode incoming :
  statusCode <> 404 ->
  events this (map deserialized ds1
               ++ RequestEnd None statusCode incoming
                  :: map deserialized ds2)
    = ParseResponse incoming
        :: map (fun d => Callback d.1 d.2) (ds1 ++ ds2).
Proof.
  intros Hsc%Z.eqb_neq. unfold events. rewrite run_app. cbv zeta.
  rewrite run_deserialized_pending by done. cbn [fst snd].
  rewrite run_cons. cbv zeta. simpl. rewrite Hsc. simpl.
  rewrite run_deserialized_ended by done. simpl.
  by rewrite map_app.
Qed.

Lemma parseResponse_no_processor this incoming :
  this_processors this = [] -> parseResponse this incoming = this.
Proof. unfold parseResponse. by intros ->. Qed.

(** X11. The signals of a call change the client, that is its cookie
    jar, only through an 'end' that carries no error and a status other
    than 404: when the client has no header processor, or no signal is
    such an 'end' (so also for a 404 or a failed transport whose headers
    carry cookies), the client after the signals is the client before. *)
Theorem methodCall_client_unchanged sigs : forall this call,
  this_processors this = [] \/
  forallb (fun s => negb (isEnd s && cleanSignal s)) sigs = true ->
  (run this call sigs).1.1 = this.
Proof.
  induction sigs as [|s sigs IH]; intros this call Hor; [done|].
  rewrite run_cons. cbv zeta. cbn [fst snd].
  assert ((signal this call s).1.1 = this) as Hs.
  { destruct s as [err|[err|] statusCode incoming|err result]; simpl.
    - by destruct (ended call).
    - done.
    - destruct (statusCode =? 404) eqn:Hsc; simpl; [done|].
      destruct Hor as [Hnone|Hall].
      + by apply parseResponse_no_processor.
      + simpl in Hall. by rewrite Hsc in Hall.
    - by destruct (ended call). }
  rewrite Hs. apply IH.
  destruct Hor as [?|Hall]; [by left|right].
  simpl in Hall. by apply andb_prop in Hall as [_ ?].
Qed.

End SignalsFurther.

(** ** The request *)

Section RequestFurther.

Context {Param : Type}.
Variable serializeMethodCall :
  string -> list Param -> option string -> thrown + string.

Lemma composedRequest_header this o (hs : gmap string string) k :
  req_header (composedRequest this o hs) !! k
    = HStr <$> composeRequest this hs !! k.
Proof.
  unfold composedRequest. simpl. rewrite lookup_union, lookup_empty.
  rewrite lookup_fmap. by destruct (composeRequest this hs !! k).
Qed.

(** [composeRequest] by cases: with a processor and a jar it writes the
    [Cookie] header, otherwise it leaves the headers alone. *)
Lemma composeRequest_eq this (hs : gmap string string) :
  composeRequest this hs =
    match this_processors this, this_cookies this with
    | _ :: _, Some jar => <["Cookie" := Cookies.toString jar]> hs
    | _, _ => hs
    end.
Proof.
  unfold composeRequest. generalize (this_processors this) as ps.
  intros ps. destruct (this_cookies this) as [jar|].
  - destruct ps as [|[] ps]; [done|]. simpl.
    unfold Cookies.composeRequest. generalize (Cookies.toString jar) as t.
    intros t. revert hs.
    induction ps as [|[] ps IH]; intros hs; simpl; [done|].
    by rewrite insert_insert_eq.
  - revert hs. induction ps as [|[] ps IH]; intros hs; simpl; [done|].
    rewrite IH. by destruct ps.
Qed.

(** Composing the headers twice is composing them once. *)
Lemma composeRequest_idempotent this (hs : gmap string string) :
  composeRequest this (composeRequest this hs) = composeRequest this hs.
Proof.
  rewrite !composeRequest_eq.
  destruct (this_processors this), (this_cookies this); try done.
  by rewrite insert_insert_eq.
Qed.

(** What [methodCall] returns, header by header *)
Lemma methodCall_returns this method params σ o lh hs xml :
  optionsObjects σ !! this_options this = Some o ->
  headers o = Some lh ->
  headersObjects σ !! lh = Some hs ->
  serializeMethodCall method params (encoding o) = inr xml ->
  exists request,
    methodCall serializeMethodCall this method params σ
      = Return (request, storeHeaders lh (composeRequest this hs) σ) /\
    req_url request = url o /\
    req_agent request = Some (this_agent this) /\
    (forall k, k <> "Content-Length" ->
       req_header request !! k = HStr <$> composeRequest this hs !! k).
Proof.
  intros Ho Hlh Hhs Hxml.
  rewrite (methodCall_eq _ _ _ _ _ _ _ _ _ Ho Hlh Hhs Hxml).
  eexists. split; [done|].
  destruct (gzipBoth o).
  - split; [done|]. split; [done|]. intros k _.
    apply composedRequest_header.
  - split; [done|]. split; [done|]. intros k Hk. simpl.
    rewrite lookup_insert_ne by done.
    apply (composedRequest_header this o hs k).
Qed.

(** X12. The request that [methodCall] makes goes to the URL of the
    configuration through the agent of the client, and carries every
    header of the configuration as [composeRequest] left it; only
    [Content-Length] is the request's own. This holds in every gzip
    mode. *)
Theorem methodCall_request this method params σ o lh hs xml :
  optionsObjects σ !! this_options this = Some o ->
  headers o = Some lh ->
  headersObjects σ !! lh = Some hs ->
  serializeMethodCall method params (encoding o) = inr xml ->
  exists request σ',
    methodCall serializeMethodCall this method params σ
      = Return (request, σ') /\
    req_url request = url o /\
    req_agent request = Some (this_agent this) /\
    (forall k, k <> "Content-Length" ->
       req_header request !! k = HStr <$> composeRequest this hs !! k).
Proof.
  intros Ho Hlh Hhs Hxml.
  destruct (methodCall_returns _ _ _ _ _ _ _ _ Ho Hlh Hhs Hxml)
    as (request & Hcall & Hrest).
  by exists request, (storeHeaders lh (composeRequest this hs) σ).
Qed.

(** X15. A second call of the same client, with no change of its cookie
    jar in between, leaves the store as the first call left it and sends
    the same headers, [Content-Length] apart: the headers that
    [composeRequest] writes into the configuration do not pile up from
    call to call. *)
Theorem methodCall_twice this m1 p1 m2 p2 σ o lh hs xml1 xml2 :
  optionsObjects σ !! this_options this = Some o ->
  headers o = Some lh ->
  headersObjects σ !! lh = Some hs ->
  serializeMethodCall m1 p1 (encoding o) = inr xml1 ->
  serializeMethodCall m2 p2 (encoding o) = inr xml2 ->
  exists r1 σ1 r2,
    methodCall serializeMethodCall this m1 p1 σ = Return (r1, σ1) /\
    methodCall serializeMethodCall this m2 p2 σ1 = Return (r2, σ1) /\
    (forall k, k <> "Content-Length" ->
       req_header r2 !! k = req_header r1 !! k).
Proof.
  intros Ho Hlh Hhs Hx1 Hx2.
  destruct (methodCall_returns _ _ _ _ _ _ _ _ Ho Hlh Hhs Hx1)
    as (r1 & Hcall1 & _ & _ & Hh1).
  set (σ1 := storeHeaders lh (composeRequest this hs) σ) in *.
  assert (optionsObjects σ1 !! this_options this = Some o) as Ho1 by done.
  assert (headersObjects σ1 !! lh = Some (composeRequest this hs)) as Hhs1.
  { unfold σ1, storeHeaders. cbn [headersObjects]. apply lookup_insert_eq. }
  destruct (methodCall_returns _ _ _ _ _ _ _ _ Ho1 Hlh Hhs1 Hx2)
    as (r2 & Hcall2 & _ & _ & Hh2).
  rewrite composeRequest_idempotent in Hcall2, Hh2.
  rewrite (storeHeaders_same _ _ σ1 Hhs1) in Hcall2.
  exists r1, σ1, r2. split; [exact Hcall1|]. split; [exact Hcall2|].
  intros k Hk. by rewrite Hh1, Hh2.
Qed.

End RequestFurther.

(** ** The further properties at sample inputs *)

(** X2: a client for a URI string, built in a store that holds the sample
    configuration at location 0; that object is not written. *)
Lemma Client_frame_witness :
  wellFormed (InString "http://localhost:9090/RPC2") sampleStore = true /\
  exists c σ',
    Client sampleUrlParse sampleVersion
      (InString "http://localhost:9090/RPC2") true sampleStore
      = Return (c, σ') /\
    optionsObjects sampleStore !! this_options c = None /\
    optionsObjects σ' !! 0%nat = Some sampleConfig.
Proof.
  split; [reflexivity|].
  destruct (Client_frame sampleUrlParse sampleVersion
              (InString "http://localhost:9090/RPC2") true sampleStore
              eq_refl)
    as (c & σ' & o' & lh & HC & _ & _ & Hopts & _ & Hnew).
  destruct (Hnew _ eq_refl) as [Hfresh _].
  exists c, σ'. split; [exact HC|]. split; [exact Hfresh|].
  rewrite Hopts; [reflexivity|].
  intros Heq. rewrite <- Heq in Hfresh. discriminate Hfresh.
Defined.

(** X3: gzip mode 'response' *)
Lemma Client_gzip_headers_witness :
  let σ := storeOf (set_gzip (JStr "response") sampleOptions) in
  wellFormed (InObject 0%nat) σ = true /\
  exists c σ' hs',
    Client sampleUrlParse sampleVersion (InObject 0%nat) false σ
      = Return (c, σ') /\
    headersOf (this_options c) σ' = Some hs' /\
    hs' !! "Accept-Encoding" = Some "gzip" /\
    hs' !! "Content-Encoding" = None.
Proof.
  intros σ. split; [reflexivity|].
  destruct (Client_gzip_headers sampleUrlParse sampleVersion
              (InObject 0%nat) false σ eq_refl)
    as (c & σ' & hs' & HC & Hh & Haccept & Hcontent).
  exists c, σ', hs'. split; [exact HC|]. split; [exact Hh|].
  split; [exact (Haccept eq_refl)|exact (Hcontent eq_refl)].
Defined.

(** X4: keepAlive 5000 *)
Lemma Client_agent_timeouts_witness :
  let σ := storeOf (set_keepAlive (Some 5000) sampleOptions) in
  wellFormed (InObject 0%nat) σ = true /\
  exists c σ',
    Client sampleUrlParse sampleVersion (InObject 0%nat) false σ
      = Return (c, σ') /\
    maxSockets (this_agent c) = 100 /\
    maxFreeSockets (this_agent c) = 10 /\
    timeout (this_agent c) = 15000 /\
    keepAliveTimeout (this_agent c) = Some 5000.
Proof.
  intros σ. split; [reflexivity|].
  destruct (Client_agent_timeouts sampleUrlParse sampleVersion
              (InObject 0%nat) false σ eq_refl)
    as (c & σ' & HC & Hmax & Hfree & Hkeep & Hsum & _).
  exists c, σ'. split; [exact HC|]. split; [exact Hmax|].
  split; [exact Hfree|]. split.
  - apply Hsum; [reflexivity|]. vm_compute. discriminate.
  - apply Hkeep. reflexivity.
Defined.

(** X5: the URI string and the object [{ url: ... }] *)
Lemma Client_string_object_agree_witness :
  let uri := "http://localhost:9090/RPC2" in
  let σ := storeOf (set_url (Some uri) emptyOptions) in
  optionsObjects σ !! 0%nat = Some (set_url (Some uri) emptyOptions) /\
  exists c1 σ1 o1 c2 σ2 o2,
    Client sampleUrlParse sampleVersion (InString uri) false σ
      = Return (c1, σ1) /\
    Client sampleUrlParse sampleVersion (InObject 0%nat) false σ
      = Return (c2, σ2) /\
    optionsObjects σ1 !! this_options c1 = Some o1 /\
    optionsObjects σ2 !! this_options c2 = Some o2 /\
    url o1 = url o2.
Proof.
  intros uri σ. split; [reflexivity|].
  destruct (Client_string_object_agree sampleUrlParse sampleVersion uri
              false σ 0%nat eq_refl)
    as (c1 & σ1 & o1 & h1 & c2 & σ2 & o2 & h2 & HC1 & HC2 & Ho1 & Ho2
        & _ & _ & _ & _ & _ & Hurl & _).
  exists c1, σ1, o1, c2, σ2, o2. repeat (split; [assumption|]). exact Hurl.
Defined.

(** X6: a [url] next to another host and port *)
Lemma Client_url_overrides_host_port_path_witness :
  let o := set_url (Some "http://localhost:9090/RPC2") sampleOptions in
  wellFormed (InObject 0%nat) (storeOf o) = true /\
  exists c σ' o',
    Client sampleUrlParse sampleVersion (InObject 0%nat) false (storeOf o)
      = Return (c, σ') /\
    optionsObjects σ' !! 0%nat = Some o' /\
    host o' = Some "localhost" /\
    port o' = JStr "9090".
Proof.
  intros o. split; [reflexivity|].
  destruct (Client_url_overrides_host_port_path sampleUrlParse sampleVersion
              0%nat false (storeOf o) o "http://localhost:9090/RPC2"
              None JUndefined None eq_refl eq_refl eq_refl)
    as (c1 & σ1 & c2 & σ2 & o' & HC1 & _ & Ho' & _ & Hhost & Hport).
  exists c1, σ1, o'. split; [exact HC1|]. split; [exact Ho'|].
  split; [exact Hhost|exact Hport].
Defined.

(** X7: a second client from the configuration of the sample client *)
Lemma Client_again_keeps_headers_witness :
  wellFormed (InObject 0%nat) (storeOf sampleOptionsWithCookies) = true /\
  exists c2 σ2,
    Client sampleUrlParse sampleVersion (InObject 0%nat) true sampleStore
      = Return (c2, σ2) /\
    headersObjects σ2 = headersObjects sampleStore.
Proof.
  split; [reflexivity|].
  destruct (Client_again_keeps_headers sampleUrlParse sampleVersion 0%nat
              false true (storeOf sampleOptionsWithCookies) sampleClient
              sampleStore eq_refl sampleClient_built)
    as (c2 & σ2 & HC & Hh & _).
  exists c2, σ2. split; [exact HC|exact Hh].
Defined.

(** X8: the sample client with cookies, after a response *)
Lemma Client_jar_registered_witness :
  wellFormed (InObject 0%nat) (storeOf sampleOptionsWithCookies) = true /\
  exists c σ',
    Client sampleUrlParse sampleVersion (InObject 0%nat) false
      (storeOf sampleOptionsWithCookies) = Return (c, σ') /\
    jarRegistered
      (run c newCall [RequestEnd (Value := Z) None 200 sampleIncoming]).1.1.
Proof.
  split; [reflexivity|].
  destruct (Client_jar_registered sampleUrlParse sampleVersion
              (InObject 0%nat) false (storeOf sampleOptionsWithCookies) Z
              [RequestEnd None 200 sampleIncoming] newCall eq_refl)
    as (c & σ' & HC & _ & Hlater & _).
  exists c, σ'. split; [exact HC|exact Hlater].
Defined.

(** X9: an 'error' after the 'end' *)
Lemma methodCall_late_error_ignored_witness :
  events (Value := Z) sampleClient
    [RequestEnd None 200 sampleIncoming;
     RequestError (JsError "socket hang up")]
  = [ParseResponse sampleIncoming].
Proof.
  pose proof (methodCall_late_error_ignored sampleClient
                [RequestEnd (Value := Z) None 200 sampleIncoming]
                (JsError "socket hang up") eq_refl) as Hsame.
  exact (eq_trans (f_equal snd Hsame) eq_refl).
Defined.

(** X10: one result before the end and one after it *)
Lemma methodCall_delivers_in_order_witness :
  200 <> 404 /\
  events sampleClient
    [Deserialized None (Some 1); RequestEnd None 200 sampleIncoming;
     Deserialized None (Some 2)]
  = [ParseResponse sampleIncoming; Callback None (Some 1);
     Callback None (Some 2)].
Proof.
  split; [lia|].
  apply (methodCall_delivers_in_order sampleClient [(None, Some 1)]
           [(None, Some 2)] 200 sampleIncoming).
  lia.
Defined.

(** X11: a 404 whose headers set a cookie; the jar keeps a=1 *)
Lemma methodCall_client_unchanged_witness :
  (run sampleClientA1 newCall
     [RequestEnd (Value := Z) None 404 sampleIncoming]).1.1 = sampleClientA1.
Proof.
  apply (methodCall_client_unchanged
           [RequestEnd (Value := Z) None 404 sampleIncoming]).
  right. reflexivity.
Defined.

(** X12: the request of the sample client *)
Lemma methodCall_request_witness :
  exists request σ',
    methodCall sampleSerializer sampleClient "ping" [] sampleStore
      = Return (request, σ') /\
    req_url request = Some "http://example.org:8080/RPC2" /\
    req_header request !! "Content-Type" = Some (HStr "text/xml").
Proof.
  destruct (methodCall_request sampleSerializer sampleClient
              "ping" [] sampleStore sampleConfig 0%nat sampleHeaders
              "<methodCall><methodName>ping</methodName><params></params></methodCall>"
              eq_refl eq_refl eq_refl eq_refl)
    as (request & σ' & Hcall & Hurl & _ & Hheaders).
  exists request, σ'. split; [exact Hcall|]. split; [exact Hurl|].
  rewrite Hheaders by discriminate. vm_compute. reflexivity.
Defined.

(** X13: an empty [userAgent] gives the default *)
Lemma Client_user_agent_witness :
  let o := {| host := None; port := JUndefined; url := None; path := None;
              cookies := JUndefined; keepAlive := None; gzip := JUndefined;
              userAgent := Some ""; headers := None; basic_auth := None;
              encoding := None; responseEncoding := None; method := None |} in
  wellFormed (InObject 0%nat) (storeOf o) = true /\
  exists c σ' hs',
    Client sampleUrlParse sampleVersion (InObject 0%nat) false (storeOf o)
      = Return (c, σ') /\
    headersOf (this_options c) σ' = Some hs' /\
    hs' !! "User-Agent" = Some "NodeJS XML-RPC Client/1.3.1".
Proof.
  intros o. split; [reflexivity|].
  destruct (Client_user_agent sampleUrlParse sampleVersion (InObject 0%nat)
              false (storeOf o) eq_refl)
    as (c & σ' & hs' & HC & Hh & Hua).
  exists c, σ', hs'. split; [exact HC|]. split; [exact Hh|exact Hua].
Defined.

(** X14: no [Cookie] header comes from the constructor *)
Lemma Client_headers_nothing_else_witness :
  wellFormed (InObject 0%nat) (storeOf sampleOptionsWithCookies) = true /\
  exists c σ' hs',
    Client sampleUrlParse sampleVersion (InObject 0%nat) false
      (storeOf sampleOptionsWithCookies) = Return (c, σ') /\
    headersOf (this_options c) σ' = Some hs' /\
    hs' !! "Cookie" = None.
Proof.
  split; [reflexivity|].
  destruct (Client_headers_nothing_else sampleUrlParse sampleVersion
              (InObject 0%nat) false (storeOf sampleOptionsWithCookies)
              eq_refl)
    as (c & σ' & o' & hs' & HC & Ho' & Hh & Hother).
  exists c, σ', hs'. split; [exact HC|]. split; [exact Hh|].
  rewrite sampleClient_built in HC. injection HC as <- <-.
  vm_compute in Ho'. injection Ho' as <-.
  rewrite Hother; [reflexivity|discriminate|].
  apply (bool_decide_unpack _). vm_compute. reflexivity.
Defined.

(** X15: two calls of the sample client with the cookie a=1 *)
Lemma methodCall_twice_witness :
  exists r1 σ1 r2,
    methodCall sampleSerializer sampleClientA1 "ping" [] sampleStore
      = Return (r1, σ1) /\
    methodCall sampleSerializer sampleClientA1 "pong" [PInt 1] σ1
      = Return (r2, σ1) /\
    req_header r2 !! "Cookie" = req_header r1 !! "Cookie".
Proof.
  destruct (methodCall_twice sampleSerializer sampleClientA1
              "ping" [] "pong" [PInt 1] sampleStore sampleConfig 0%nat
              sampleHeaders
              "<methodCall><methodName>ping</methodName><params></params></methodCall>"
              "<methodCall><methodName>pong</methodName><params><param><value><int>1</int></value></param></params></methodCall>"
              eq_refl eq_refl eq_refl eq_refl eq_refl)
    as (r1 & σ1 & r2 & H1 & H2 & Hh).
  exists r1, σ1, r2. split; [exact H1|]. split; [exact H2|].
  apply Hh. discriminate.
Defined.
